(** * OAuth2 authorization-code sample: the handlers of package [server]

    A shallow embedding of [server/handlers.go]: the two scope-gated pages
    ([accessHandler], [adminHandler]) and the authorization-code callback
    ([callbackHandler]).  The collaborators the handlers call into
    (the session store, the [net/http] response writer, the OAuth2 provider,
    [encoding/json]) are modelled by the part of their behaviour the handlers
    observe; every call a handler makes is recorded in a trace. *)

From Stdlib Require Import ZArith String Ascii List Bool Lia.
From stdpp Require Import base strings gmap list.

Open Scope string_scope.

Module Server.

(** ** Strings of the source *)

(** The double-quote character, for the HTML literals of the source. *)
Definition dq : string := String (ascii_of_nat 34) EmptyString.

(** Go's [len(s) > 0] and [len(s) == 0] on strings. *)
Definition len (s : string) : nat := String.length s.

(** [strings.Contains(s, sub)]: [sub] occurs somewhere inside [s]. *)
Fixpoint Contains (s sub : string) : bool :=
  match s with
  | EmptyString => String.prefix sub EmptyString
  | String _ rest =>
      if String.prefix sub s then true else Contains rest sub
  end.

(** ** Claims and the scope gate *)

(** The claims of an access token, as far as the gate reads them. *)
Record ClaimSet := mkClaimSet { scopes : list string }.

Definition emptyClaimSet : ClaimSet := {| scopes := [] |}.

(** The error of the claims parser. *)
Inductive ParseError := MalformedToken.

Definition ParseError_Error (e : ParseError) : string :=
  match e with MalformedToken => "malformed token" end.

(** [c == s] over the scopes of a claim set: exact, case-sensitive. *)
Fixpoint containsScope (granted : list string) (s : string) : bool :=
  match granted with
  | [] => false
  | c :: rest => if String.eqb c s then true else containsScope rest s
  end.

(** Modelled from the spec: [hasScope] is declared in a file of the package
    that is not part of the sources at hand.  The spec gives its contract:
    [hasScope(claims, requiredScopes...) -> bool], true iff one of the
    required scopes is among the scopes of the claim set (logical OR), pure
    and total. *)
Fixpoint hasScope (token : ClaimSet) (required : list string) : bool :=
  match required with
  | [] => false
  | s :: rest =>
      if containsScope (scopes token) s then true else hasScope token rest
  end.

Section Parser.

(** The token format is not fixed by the spec ("a claims-bearing signed
    token format"): the decoding of a well-formed token into its scope
    strings is a parameter. *)
Variable decodeClaims : string -> option (list string).

(** Modelled from the spec: [parseToken] is declared in a file of the
    package that is not part of the sources at hand.  The spec gives its
    contract: [parse(tokenString) -> (ClaimSet, error)], a pure function
    without side effects; an empty or unparsable token yields an error
    alongside an empty ClaimSet. *)
Definition parseToken (tokenString : string) : ClaimSet * option ParseError :=
  match tokenString with
  | EmptyString => (emptyClaimSet, Some MalformedToken)
  | _ =>
      match decodeClaims tokenString with
      | Some granted => ({| scopes := granted |}, None)
      | None => (emptyClaimSet, Some MalformedToken)
      end
  end.

End Parser.

(** A token format for the examples: the scopes separated by one space. *)
Fixpoint splitSpace (acc : string) (s : string) : list string :=
  match s with
  | EmptyString => [acc]
  | String c rest =>
      if Ascii.eqb c " "%char then acc :: splitSpace EmptyString rest
      else splitSpace (acc +:+ String c EmptyString) rest
  end.

Definition sampleDecode (t : string) : option (list string) :=
  if String.prefix "bad" t then None else Some (splitSpace EmptyString t).

(** ** Collaborators *)

Set Warnings "-register-all".

(** A decoded JSON document ([encoding/json] into [interface{}]); a number
    is kept as its literal. *)
Inductive JSON :=
| JNull
| JBool (b : bool)
| JNumber (literal : string)
| JString (s : string)
| JArray (items : list JSON)
| JObject (fields : list (string * JSON)).

(** Go's [interface{}] at the places the handlers use it: what a session
    holds and what [token.Extra] returns. *)
Inductive Value :=
| VNil
| VString (s : string)
| VMap (m : list (string * JSON)).

(** [authConfig]: the static configuration (its declaration is outside
    [handlers.go]; these are the fields the handlers read). *)
Record authConfig := {
  ClientID : string;
  ClientSecret : string;
  Domain : string;
  CallbackURL : string
}.

(** [oauth2.Endpoint] and [oauth2.Config]. *)
Record Endpoint := { AuthURL : string; TokenURL : string }.

Record Config := {
  cfClientID : string;
  cfClientSecret : string;
  cfRedirectURL : string;
  cfScopes : list string;
  cfEndpoint : Endpoint
}.

(** [oauth2.Token]: the access token and the extra fields of the token
    response. *)
Record Token := { AccessToken : string; Extra : string -> Value }.

(** The response of the userinfo request: reading its body gives the raw
    bytes or fails. *)
Record HTTPResponse := { Body : string + string }.

(** What the identity provider and the decoders answer.  An error is the
    text of its [Error()]. *)
Record Provider := {
  Exchange : Config -> string -> Token + string;
  ClientGet : Config -> Token -> string -> HTTPResponse + string;
  Unmarshal : string -> list (string * JSON) + string
}.

(** The request: its method and [r.URL.Query()], a [url.Values]. *)
Record Request := { Method : string; Query : gmap string (list string) }.

(** [url.Values.Get]: the first value of the key, the empty string when
    there is none. *)
Definition Values_Get (v : gmap string (list string)) (key : string) : string :=
  match v !! key with
  | Some (x :: _) => x
  | _ => EmptyString
  end.

(** HTTP status codes of [net/http]. *)
Definition StatusOK : Z := 200.
Definition StatusMovedPermanently : Z := 301.
Definition StatusBadRequest : Z := 400.
Definition StatusInternalServerError : Z := 500.

(** The [http.ResponseWriter] of one request: the header map, the status
    line once written, and the body written so far. *)
Record ResponseWriter := {
  Header : gmap string string;
  Status : option Z;
  Written : string
}.

Definition newResponseWriter : ResponseWriter :=
  {| Header := ∅; Status := None; Written := EmptyString |}.

(** The calls a handler makes on its collaborators, in order. *)
Inductive Event :=
| EvExchange (conf : Config) (code : string)
| EvClientGet (conf : Config) (bearer : string) (url : string)
| EvReadAll
| EvBodyClose
| EvSessionStart
| EvSessionSet (key : string) (v : Value)
| EvSessionRelease
| EvPrintf (text : string)
| EvWrite (b : string)
| EvError (error : string) (code : Z)
| EvRedirect (url : string) (code : Z).

(** The state a handler runs in: the store the session manager has for
    the requesting browser (empty when the browser is new; none at all
    when the manager cannot start the session and [SessionStart] returns
    nil with an error), the response writer and the trace of calls. *)
Record World := {
  session : option (gmap string Value);
  writer : ResponseWriter;
  trace : list Event
}.

Definition newWorld (m : option (gmap string Value)) : World :=
  {| session := m; writer := newResponseWriter; trace := [] |}.

(** ** The handler monad *)

(** How a piece of a handler body ends: it falls through with a value, it
    executes [return], or it panics. *)
Inductive Outcome (A : Type) :=
| Next (a : A)
| Returned
| Panicked (msg : string).

Arguments Next {A} a.
Arguments Returned {A}.
Arguments Panicked {A} msg.

Definition Handler (A : Type) : Type := World -> Outcome A * World.

#[global] Instance Handler_ret : MRet Handler :=
  fun A (a : A) (st : World) => (Next a, st).

#[global] Instance Handler_bind : MBind Handler :=
  fun A B (k : A -> Handler B) (m : Handler A) (st : World) =>
    match m st with
    | (Next a, st') => k a st'
    | (Returned, st') => (Returned, st')
    | (Panicked msg, st') => (Panicked msg, st')
    end.

(** The [return] statement. *)
Definition Return {A : Type} : Handler A := fun st => (Returned, st).

(** A run-time panic. *)
Definition panic {A : Type} (msg : string) : Handler A :=
  fun st => (Panicked msg, st).

(** [defer d] followed by the rest of the function body: [d] runs when the
    function leaves, by fall-through, [return] or panic. *)
Definition defer {A : Type} (d : Handler unit) (rest : Handler A) : Handler A :=
  fun st =>
    let '(o, st1) := rest st in
    let '(_, st2) := d st1 in
    (o, st2).

Definition emit (e : Event) : Handler unit :=
  fun st =>
    (Next tt, {| session := session st; writer := writer st;
                 trace := trace st ++ [e] |}).

Definition onWriter (f : ResponseWriter -> ResponseWriter) : Handler unit :=
  fun st =>
    (Next tt, {| session := session st; writer := f (writer st);
                 trace := trace st |}).

(** *** [net/http] *)

(** [w.Header().Set(key, value)]. *)
Definition Header_Set (key value : string) : Handler unit :=
  onWriter (fun w => {| Header := <[key := value]> (Header w);
                        Status := Status w; Written := Written w |}).

(** [w.WriteHeader(code)]: only the first call sets the status. *)
Definition WriteHeader (code : Z) : Handler unit :=
  onWriter (fun w => {| Header := Header w;
                        Status := match Status w with
                                  | Some c => Some c
                                  | None => Some code
                                  end;
                        Written := Written w |}).

(** The bytes [b] reach the body; the first write without a status sends
    [200 OK]. *)
Definition writeBody (b : string) : Handler unit :=
  onWriter (fun w => {| Header := Header w;
                        Status := match Status w with
                                  | Some c => Some c
                                  | None => Some StatusOK
                                  end;
                        Written := Written w +:+ b |}).

(** [w.Write(b)]. *)
Definition Write (b : string) : Handler unit :=
  emit (EvWrite b) ;; writeBody b.

(** [fmt.Fprintf(w, text)] with a text without verbs. *)
Definition Fprintf (text : string) : Handler unit := Write text.

(** End of line, as [fmt.Fprintln] appends it. *)
Definition nl : string := String (ascii_of_nat 10) EmptyString.

(** [http.Error(w, error, code)]: a plain-text reply with the status and
    the error text followed by a newline. *)
Definition http_Error (error : string) (code : Z) : Handler unit :=
  emit (EvError error code) ;;
  Header_Set "Content-Type" "text/plain; charset=utf-8" ;;
  Header_Set "X-Content-Type-Options" "nosniff" ;;
  WriteHeader code ;;
  writeBody (error +:+ nl).

(** [http.StatusText] at the codes the handlers use. *)
Definition StatusText (code : Z) : string :=
  if (code =? StatusOK)%Z then "OK"
  else if (code =? StatusMovedPermanently)%Z then "Moved Permanently"
  else if (code =? StatusBadRequest)%Z then "Bad Request"
  else if (code =? StatusInternalServerError)%Z then "Internal Server Error"
  else EmptyString.

(** The response writer as it stands. *)
Definition theWriter : Handler ResponseWriter :=
  fun st => (Next (writer st), st).

(** Whether the header map has the key. *)
Definition hasHeader (w : ResponseWriter) (key : string) : bool :=
  match Header w !! key with
  | Some _ => true
  | None => false
  end.

(** [http.Redirect(w, r, url, code)] for a [url] that is an absolute path
    without characters to escape, as the callback passes it: the
    [Location] header, the status and, when no content type is set, a
    content type for GET and HEAD and a short HTML note as the body of a
    GET. *)
Definition http_Redirect (r : Request) (url : string) (code : Z) : Handler unit :=
  emit (EvRedirect url code) ;;
  w ← theWriter;
  let hadCT := hasHeader w "Content-Type" in
  Header_Set "Location" url ;;
  (if negb hadCT && (String.eqb (Method r) "GET" || String.eqb (Method r) "HEAD")
   then Header_Set "Content-Type" "text/html; charset=utf-8"
   else mret tt) ;;
  WriteHeader code ;;
  if negb hadCT && String.eqb (Method r) "GET"
  then writeBody ("<a href=" +:+ dq +:+ url +:+ dq +:+ ">"
                  +:+ StatusText code +:+ "</a>." +:+ nl +:+ nl)
  else mret tt.

(** [fmt.Printf]: standard output. *)
Definition Printf (text : string) : Handler unit := emit (EvPrintf text).

(** *** The session store (beego [session]) *)

(** The [session.Store] a handler holds: the store of the browser's
    session, or the nil interface. *)
Inductive Store := NilStore | BrowserStore.

(** A method called on a nil interface. *)
Definition nilDereference : string :=
  "runtime error: invalid memory address or nil pointer dereference".

(** [session, _ := sessionManager.SessionStart(w, r)]: the store of the
    browser's session; nil when the manager cannot start it.  The error
    that comes with the nil is dropped by every caller. *)
Definition SessionStart : Handler Store :=
  fun st =>
    (Next (match session st with
           | Some _ => BrowserStore
           | None => NilStore
           end),
     {| session := session st; writer := writer st;
        trace := trace st ++ [EvSessionStart] |}).

(** [session.SessionRelease(w)]. *)
Definition SessionRelease (store : Store) : Handler unit :=
  match store with
  | NilStore => panic nilDereference
  | BrowserStore => emit EvSessionRelease
  end.

(** [defer session.SessionRelease(w)] followed by the rest of the body:
    the method value is taken when the [defer] statement runs, so a nil
    store panics there and the rest is not reached. *)
Definition defer_SessionRelease {A : Type} (store : Store)
    (rest : Handler A) : Handler A :=
  match store with
  | NilStore => panic nilDereference
  | BrowserStore => defer (SessionRelease store) rest
  end.

(** [session.Get(key)]: the value, [nil] when the key is not set. *)
Definition Session_Get (store : Store) (key : string) : Handler Value :=
  match store with
  | NilStore => panic nilDereference
  | BrowserStore =>
      fun st => (Next (default VNil (session st ≫= (.!! key))), st)
  end.

(** [session.Set(key, value)]. *)
Definition Session_Set (store : Store) (key : string) (v : Value)
  : Handler unit :=
  match store with
  | NilStore => panic nilDereference
  | BrowserStore =>
      fun st =>
        (Next tt, {| session := (<[key := v]>) <$> session st;
                     writer := writer st;
                     trace := trace st ++ [EvSessionSet key v] |})
  end.

(** The type assertion [v.(string)] without the comma-ok form: it panics
    on anything that is not a string, [nil] included. *)
Definition assertString (v : Value) : Handler string :=
  match v with
  | VString s => mret s
  | VNil => panic "interface conversion: interface {} is nil, not string"
  | VMap _ =>
      panic "interface conversion: interface {} is map[string]interface {}, not string"
  end.

(** ** What the client sees *)

(** The reply to one request: the status, header and body the handler
    wrote ([200 OK] when it wrote no status), or no reply at all when
    the handler panicked and the server dropped the connection. *)
Inductive Reply :=
| Replied (status : Z) (header : gmap string string) (body : string)
| Aborted (msg : string).

Definition reply {A : Type} (r : Outcome A * World) : Reply :=
  match r with
  | (Panicked msg, _) => Aborted msg
  | (_, st) =>
      Replied (default StatusOK (Status (writer st)))
              (Header (writer st)) (Written (writer st))
  end.

(** ** The handlers of [handlers.go] *)

(** The pages of lines 54-65 and 89-100. *)
Definition accessPage : string :=
"
<html>
  <head>
    <title>Access Page</title>
  </head>
  <body>
    <h2>You have successfully reached the Access Page</h2>
    <p>This page requires either the <code>test.access</code> or <code>test.admin</code> scope.</p>
    <hr/>
    <p>Visit the <a href=" +:+ dq +:+ "/protected/admin" +:+ dq +:+ ">Admin Page</a>.</p>
  </body>
</html>".

Definition adminPage : string :=
"
<html>
  <head>
    <title>Admin Page</title>
  </head>
  <body>
    <h2>You have successfully reached the Admin Page</h2>
    <p>This page requires the <code>test.admin</code> scope.</p>
    <hr/>
    <p>Visit the <a href=" +:+ dq +:+ "/protected/access" +:+ dq +:+ ">Access Page</a>.</p>
  </body>
</html>".

Definition notAuthorized : string := "YOU ARE NOT AUTHORIZED".

Section Pages.

Variable decodeClaims : string -> option (list string).

(** [accessHandler] (lines 38-71) and [adminHandler] (lines 73-106): the
    error of [SessionStart] is dropped; the deferred [SessionRelease]
    encloses the rest of the body. *)

Definition accessHandler (r : Request) : Handler unit :=
  session ← SessionStart;
  defer_SessionRelease session (
    accessToken ← Session_Get session "access_token";
    tokenString ← assertString accessToken;
    let '(token, err) := parseToken decodeClaims tokenString in
    match err with
    | Some e => Printf ("Error Parsing Token: " +:+ ParseError_Error e)
    | None => mret tt
    end ;;
    if hasScope token ["test.access"; "test.admin"] then
      Header_Set "Content-Type" "text/html;charset=utf-8" ;;
      Write accessPage
    else
      Fprintf notAuthorized).

Definition adminHandler (r : Request) : Handler unit :=
  session ← SessionStart;
  defer_SessionRelease session (
    accessToken ← Session_Get session "access_token";
    tokenString ← assertString accessToken;
    let '(token, err) := parseToken decodeClaims tokenString in
    match err with
    | Some e => Printf ("Error Parsing Token: " +:+ ParseError_Error e)
    | None => mret tt
    end ;;
    if hasScope token ["test.admin"] then
      Header_Set "Content-Type" "text/html;charset=utf-8" ;;
      Write adminPage
    else
      Fprintf notAuthorized).

End Pages.

(** The [oauth2.Config] the callback builds from the static configuration
    (lines 119-128). *)
Definition oauthConfig (config : authConfig) : Config :=
  {| cfClientID := ClientID config;
     cfClientSecret := ClientSecret config;
     cfRedirectURL := CallbackURL config;
     cfScopes := ["openid"; "test.access"; "test.admin"];
     cfEndpoint := {| AuthURL := Domain config +:+ "/oauth/authorize";
                      TokenURL := Domain config +:+ "/oauth/token" |} |}.

Section Callback.

Variable idp : Provider.

(** [conf.Exchange(ctx, code)]. *)
Definition conf_Exchange (conf : Config) (code : string)
  : Handler (Token + string) :=
  emit (EvExchange conf code) ;; mret (Exchange idp conf code).

(** [conf.Client(ctx, token).Get(url)]: the request carries the access
    token as bearer credential. *)
Definition client_Get (conf : Config) (token : Token) (url : string)
  : Handler (HTTPResponse + string) :=
  emit (EvClientGet conf (AccessToken token) url) ;;
  mret (ClientGet idp conf token url).

(** [ioutil.ReadAll(resp.Body)]. *)
Definition ReadAll (resp : HTTPResponse) : Handler (string + string) :=
  emit EvReadAll ;; mret (Body resp).

(** [resp.Body.Close()]. *)
Definition Body_Close : Handler unit := emit EvBodyClose.

(** The callback of the authorization-code flow (lines 108-190).  The
    HTTP client the handler builds for the provider (its transport skips
    certificate verification) lives in [ctx]; what the provider answers
    through it is [idp]. *)
Definition callbackHandler (config : authConfig) (r : Request) : Handler unit :=
  let conf := oauthConfig config in
  let e := Values_Get (Query r) "error" in
  if (0 <? len e)%nat then
    http_Error e StatusBadRequest ;; Return
  else
  let code := Values_Get (Query r) "code" in
  if (len code =? 0)%nat then
    http_Error "Did not receive authcode from IdP" StatusInternalServerError ;;
    Return
  else
  exchanged ← conf_Exchange conf code;
  match exchanged with
  | inr err => http_Error err StatusInternalServerError ;; Return
  | inl token =>
  fetched ← client_Get conf token (Domain config +:+ "/userinfo");
  match fetched with
  | inr err => http_Error err StatusInternalServerError ;; Return
  | inl resp =>
  read ← ReadAll resp;
  defer Body_Close (
  match read with
  | inr err => http_Error err StatusInternalServerError ;; Return
  | inl raw =>
  match Unmarshal idp raw with
  | inr err => http_Error err StatusInternalServerError ;; Return
  | inl profile =>
  session ← SessionStart;
  defer_SessionRelease session (
    Session_Set session "id_token" (Extra token "id_token") ;;
    Session_Set session "access_token" (VString (AccessToken token)) ;;
    Session_Set session "profile" (VMap profile) ;;
    http_Redirect r "/protected/access" StatusMovedPermanently)
  end
  end)
  end
  end.

End Callback.

(** A handler serves one request on a fresh response writer, against the
    store the session manager has for the browser: [Some s] with the
    content [s] of the session, [None] when the manager cannot start the
    session. *)
Definition serve (h : Handler unit) (m : option (gmap string Value))
  : Outcome unit * World :=
  h (newWorld m).

(** How many calls of a kind a trace holds. *)
Fixpoint count (kind : Event -> bool) (tr : list Event) : nat :=
  match tr with
  | [] => 0
  | e :: rest => (if kind e then 1 else 0) + count kind rest
  end.

Definition isExchange (e : Event) : bool :=
  match e with EvExchange _ _ => true | _ => false end.

Definition isProfileFetch (e : Event) : bool :=
  match e with EvClientGet _ _ _ => true | _ => false end.

Definition isSessionStart (e : Event) : bool :=
  match e with EvSessionStart => true | _ => false end.

Definition isSessionRelease (e : Event) : bool :=
  match e with EvSessionRelease => true | _ => false end.

Definition isSessionSet (e : Event) : bool :=
  match e with EvSessionSet _ _ => true | _ => false end.

Definition isSessionSetOf (key : string) (e : Event) : bool :=
  match e with EvSessionSet k _ => String.eqb k key | _ => false end.

(** ** Sample collaborators *)

Definition sampleConfig : authConfig :=
  {| ClientID := "client"; ClientSecret := "secret";
     Domain := "https://idp.example"; CallbackURL := "http://localhost/callback" |}.

Definition sampleToken : Token :=
  {| AccessToken := "test.access";
     Extra := fun key => if String.eqb key "id_token" then VString "id-1" else VNil |}.

(** A provider that accepts the code [good] and serves an empty profile. *)
Definition sampleProvider : Provider :=
  {| Exchange := fun _ code =>
       if String.eqb code "good" then inl sampleToken
       else inr "oauth2: cannot fetch token";
     ClientGet := fun _ _ _ => inl {| Body := inl "{}" |};
     Unmarshal := fun raw =>
       if String.eqb raw "{}" then inl [] else inr "unexpected end of JSON input" |}.

Definition sampleRequest (q : list (string * list string)) : Request :=
  {| Method := "GET"; Query := list_to_map q |}.

(** ** Replies and failures of the callback *)

(** The writer after [http.Error(w, error, code)] on a fresh writer. *)
Definition errorReply (error : string) (code : Z) : ResponseWriter :=
  {| Header := <["X-Content-Type-Options" := "nosniff"]>
                 (<["Content-Type" := "text/plain; charset=utf-8"]> ∅);
     Status := Some code;
     Written := error +:+ nl |}.

(** The writer after [http.Redirect(w, r, url, code)] on a fresh
    writer. *)
Definition redirectReply (r : Request) (url : string) (code : Z)
  : ResponseWriter :=
  {| Header :=
       if String.eqb (Method r) "GET" || String.eqb (Method r) "HEAD"
       then <["Content-Type" := "text/html; charset=utf-8"]>
              (<["Location" := url]> ∅)
       else <["Location" := url]> ∅;
     Status := Some code;
     Written :=
       if String.eqb (Method r) "GET"
       then "<a href=" +:+ dq +:+ url +:+ dq +:+ ">" +:+ StatusText code
            +:+ "</a>." +:+ nl +:+ nl
       else EmptyString |}.

(** The reply is an error reply: a status of 400 or above. *)
Definition isErrorReply (w : ResponseWriter) : Prop :=
  exists code : Z, Status w = Some code /\ (400 <= code)%Z.

(** The six ways a callback request fails, in the order the handler meets
    them. *)
Inductive CallbackFails (idp : Provider) (config : authConfig) (r : Request)
  : Prop :=
| ProviderError :
    Values_Get (Query r) "error" <> EmptyString ->
    CallbackFails idp config r
| MissingCode :
    Values_Get (Query r) "error" = EmptyString ->
    Values_Get (Query r) "code" = EmptyString ->
    CallbackFails idp config r
| ExchangeFailed (err : string) :
    Values_Get (Query r) "error" = EmptyString ->
    Values_Get (Query r) "code" <> EmptyString ->
    Exchange idp (oauthConfig config) (Values_Get (Query r) "code") = inr err ->
    CallbackFails idp config r
| ProfileFetchFailed (token : Token) (err : string) :
    Values_Get (Query r) "error" = EmptyString ->
    Values_Get (Query r) "code" <> EmptyString ->
    Exchange idp (oauthConfig config) (Values_Get (Query r) "code") = inl token ->
    ClientGet idp (oauthConfig config) token (Domain config +:+ "/userinfo")
      = inr err ->
    CallbackFails idp config r
| BodyReadFailed (token : Token) (resp : HTTPResponse) (err : string) :
    Values_Get (Query r) "error" = EmptyString ->
    Values_Get (Query r) "code" <> EmptyString ->
    Exchange idp (oauthConfig config) (Values_Get (Query r) "code") = inl token ->
    ClientGet idp (oauthConfig config) token (Domain config +:+ "/userinfo")
      = inl resp ->
    Body resp = inr err ->
    CallbackFails idp config r
| ProfileDecodeFailed (token : Token) (resp : HTTPResponse) (raw err : string) :
    Values_Get (Query r) "error" = EmptyString ->
    Values_Get (Query r) "code" <> EmptyString ->
    Exchange idp (oauthConfig config) (Values_Get (Query r) "code") = inl token ->
    ClientGet idp (oauthConfig config) token (Domain config +:+ "/userinfo")
      = inl resp ->
    Body resp = inl raw ->
    Unmarshal idp raw = inr err ->
    CallbackFails idp config r.

(** ** Outcomes of a protected page *)

(** The page body was served with [200 OK]. *)
Definition pageServed (page : string) (out : Outcome unit * World) : Prop :=
  exists h : gmap string string, reply out = Replied StatusOK h page.

(** The request was turned away: [200 OK] and the plain text
    [YOU ARE NOT AUTHORIZED]. *)
Definition denied (out : Outcome unit * World) : Prop :=
  reply out = Replied StatusOK ∅ notAuthorized.

(** ** The home page *)

(** [homeTemplate] (lines 19-29). *)
Definition homeTemplate : string :=
"
<html>
  <head>
    <title>OAuth Authcode Sample</title>
  </head>
  <body>
    <h2>Welcome to the OAuth Authcode Home Page</h2>
    <p>We don't know who you are.  Please <a href=" +:+ dq +:+ "{{.Domain}}/oauth/authorize?client_id={{.ClientID}}&redirect_uri={{.CallbackURL}}&response_type=code" +:+ dq +:+ ">log in</a>.
  </body>
</html>
".

(** The part of [text/template] the home template uses: literal text and
    field actions [{{.Name}}]. *)
Inductive Node :=
| NText (text : string)
| NField (name : string).

(** A text node; the lexer emits none for an empty stretch of text. *)
Definition textNode (acc : string) : list Node :=
  match acc with
  | EmptyString => []
  | _ => [NText acc]
  end.

(** The field an action names: a dot and a name.  Other actions are
    outside this model. *)
Definition fieldName (action : string) : option string :=
  match action with
  | String "."%char (String c name) => Some (String c name)
  | _ => None
  end.

(** [Parse]: the text is cut at the delimiters.  [inAction] tells whether
    an action is open, [acc] holds the characters read since the last
    delimiter; text that ends inside an action does not parse. *)
Fixpoint parseNodes (inAction : bool) (acc : string) (s : string)
  : option (list Node) :=
  match s with
  | EmptyString => if inAction then None else Some (textNode acc)
  | String c rest =>
      match rest with
      | String d rest' =>
          if negb inAction && Ascii.eqb c "{"%char && Ascii.eqb d "{"%char then
            nodes ← parseNodes true EmptyString rest';
            Some (textNode acc ++ nodes)%list
          else if inAction && Ascii.eqb c "}"%char && Ascii.eqb d "}"%char then
            name ← fieldName acc;
            nodes ← parseNodes false EmptyString rest';
            Some (NField name :: nodes)
          else parseNodes inAction (acc +:+ String c EmptyString) rest
      | EmptyString => parseNodes inAction (acc +:+ String c EmptyString) rest
      end
  end.

Definition template_Parse (text : string) : option (list Node) :=
  parseNodes false EmptyString text.

(** The exported fields of [authConfig], as the template reaches them by
    name. *)
Definition fieldOf (config : authConfig) (name : string) : option string :=
  if String.eqb name "ClientID" then Some (ClientID config)
  else if String.eqb name "ClientSecret" then Some (ClientSecret config)
  else if String.eqb name "Domain" then Some (Domain config)
  else if String.eqb name "CallbackURL" then Some (CallbackURL config)
  else None.

(** [t.Execute(w, config)]: each node is written in turn, a field as its
    value without any escaping; a field the data does not have stops the
    execution with an error, what was written stays written. *)
Fixpoint template_Execute (t : list Node) (config : authConfig)
  : Handler (option string) :=
  match t with
  | [] => mret None
  | NText text :: rest => Write text ;; template_Execute rest config
  | NField name :: rest =>
      match fieldOf config name with
      | Some value => Write value ;; template_Execute rest config
      | None => mret (Some ("can't evaluate field " +:+ name))
      end
  end.

(** [homeHandler] (lines 31-36): [template.Must] panics when the template
    does not parse; the error of [Execute] is dropped. *)
Definition homeHandler (config : authConfig) (r : Request) : Handler unit :=
  match template_Parse homeTemplate with
  | None => panic "template: html: parse error"
  | Some t => template_Execute t config ;; mret tt
  end.

(** The link of the home page to the provider's authorization endpoint. *)
Definition loginLink (authURL clientID redirectURL : string) : string :=
  authURL +:+ "?client_id=" +:+ clientID +:+ "&redirect_uri=" +:+ redirectURL
  +:+ "&response_type=code".

(** The text of the home page before and after the link. *)
Definition homeHead : string :=
"
<html>
  <head>
    <title>OAuth Authcode Sample</title>
  </head>
  <body>
    <h2>Welcome to the OAuth Authcode Home Page</h2>
    <p>We don't know who you are.  Please <a href=" +:+ dq.

Definition homeFoot : string :=
dq +:+ ">log in</a>.
  </body>
</html>
".

(** Providers that fail after the exchange: the profile request does not
    get through, the body breaks off, the profile is not JSON. *)
Definition unreachableProfile : Provider :=
  {| Exchange := Exchange sampleProvider;
     ClientGet := fun _ _ _ => inr "Get /userinfo: connection refused";
     Unmarshal := Unmarshal sampleProvider |}.

Definition truncatedProfile : Provider :=
  {| Exchange := Exchange sampleProvider;
     ClientGet := fun _ _ _ => inl {| Body := inr "unexpected EOF" |};
     Unmarshal := Unmarshal sampleProvider |}.

Definition garbledProfile : Provider :=
  {| Exchange := Exchange sampleProvider;
     ClientGet := fun _ _ _ => inl {| Body := inl "<html>" |};
     Unmarshal := fun raw =>
       if String.eqb raw "{}" then inl []
       else inr "invalid character '<' looking for beginning of value" |}.

(** ** More kinds of calls *)

Definition isReadAll (e : Event) : bool :=
  match e with EvReadAll => true | _ => false end.

Definition isBodyClose (e : Event) : bool :=
  match e with EvBodyClose => true | _ => false end.

Definition isPrintf (e : Event) : bool :=
  match e with EvPrintf _ => true | _ => false end.

(** What a page prints about the parse of the token (lines 48-50 and 83-85). *)
Definition printed (err : option ParseError) : list Event :=
  match err with
  | Some e => [EvPrintf ("Error Parsing Token: " +:+ ParseError_Error e)]
  | None => []
  end.

(** The calls to the provider and to the session store, by kind. *)
Inductive Step :=
| StepExchange
| StepFetch
| StepRead
| StepStart
| StepSet.

Definition stepOf (e : Event) : option Step :=
  match e with
  | EvExchange _ _ => Some StepExchange
  | EvClientGet _ _ _ => Some StepFetch
  | EvReadAll => Some StepRead
  | EvSessionStart => Some StepStart
  | EvSessionSet _ _ => Some StepSet
  | _ => None
  end.

Fixpoint steps (tr : list Event) : list Step :=
  match tr with
  | [] => []
  | e :: rest =>
      match stepOf e with
      | Some k => k :: steps rest
      | None => steps rest
      end
  end.

(** The handler reached the provider or the session store. *)
Definition isOutsideCall (e : Event) : bool :=
  match e with
  | EvWrite _ | EvError _ _ | EvRedirect _ _ | EvPrintf _ => false
  | _ => true
  end.

(** * Properties *)

(** ** The scope gate *)

Lemma containsScope_elem (granted : list string) (s : string) :
  containsScope granted s = true <-> s ∈ granted.
Proof.
  induction granted as [|c rest IH]; simpl.
  - split; [discriminate | intros H; inversion H].
  - destruct (String.eqb_spec c s) as [->|Hne].
    + split; [intros _; apply list_elem_of_here | done].
    + rewrite IH, elem_of_cons.
      split; [by right | intros [E|H]; [congruence | done]].
Qed.

(** C2: [hasScope(C, S...)] is true iff the scopes of [C] and the required
    scopes [S] have a string in common (equality of strings: exact and
    case-sensitive). *)
Theorem hasScope_intersects (C : ClaimSet) (S : list string) :
  hasScope C S = true <-> exists s : string, s ∈ scopes C /\ s ∈ S.
Proof.
  induction S as [|r rest IH]; simpl.
  - split; [discriminate | intros (s & _ & H); inversion H].
  - destruct (containsScope (scopes C) r) eqn:Hr.
    + apply containsScope_elem in Hr.
      split; [intros _; exists r; split; [done | apply list_elem_of_here] | done].
    + rewrite IH. split.
      * intros (s & Hc & Hs). exists s. split; [done | by apply list_elem_of_further].
      * intros (s & Hc & Hs). apply elem_of_cons in Hs as [->|Hs].
        -- apply containsScope_elem in Hc. congruence.
        -- by exists s.
Qed.

(** Matching is case-sensitive: a scope in another case does not grant. *)
Example hasScope_case_sensitive :
  hasScope {| scopes := ["Test.Access"] |} ["test.access"; "test.admin"] = false.
Proof. reflexivity. Qed.

(** C8: a claim set with zero scopes is denied, whatever the required
    scopes are, the empty list included. *)
Theorem hasScope_no_scopes_denies (C : ClaimSet) (S : list string) :
  scopes C = [] -> hasScope C S = false.
Proof.
  intros HC. induction S as [|r rest IH]; simpl; [done|].
  by rewrite HC.
Qed.

Lemma hasScope_no_scopes_denies_witness :
  scopes emptyClaimSet = [] /\
  hasScope emptyClaimSet ["test.access"; "test.admin"] = false.
Proof.
  split; [reflexivity|].
  apply (hasScope_no_scopes_denies emptyClaimSet ["test.access"; "test.admin"]).
  reflexivity.
Defined.

(** ** The claims parser *)

(** The error path of the parser: an empty or undecodable token gives an
    error alongside the empty claim set. *)
Lemma parseToken_malformed
    (decodeClaims : string -> option (list string)) (t : string) :
  t = EmptyString \/ decodeClaims t = None ->
  parseToken decodeClaims t = (emptyClaimSet, Some MalformedToken).
Proof.
  intros [-> | Hd]; [done|].
  unfold parseToken. rewrite Hd. by destruct t.
Qed.

(** ** The callback *)

(** Unfolds the handler monad and the collaborators' calls. *)
Ltac run :=
  repeat (unfold serve, http_Error, http_Redirect, conf_Exchange, client_Get,
            ReadAll, Body_Close, SessionStart, defer_SessionRelease,
            SessionRelease, Session_Set, Session_Get, Header_Set, WriteHeader,
            writeBody, Write, Fprintf, Printf, theWriter, emit, onWriter,
            defer, Return, panic, newWorld, newResponseWriter, mbind, mret,
            Handler_bind, Handler_ret;
          cbn).

Lemma prefix_append (a b : string) : String.prefix a (a +:+ b) = true.
Proof.
  induction a as [|c a IH]; simpl; [by destruct b|].
  by destruct (ascii_dec c c).
Qed.

Lemma Contains_prefix (s sub : string) :
  String.prefix sub s = true -> Contains s sub = true.
Proof.
  intros H. destruct s as [|c rest]; [exact H|].
  change (Contains (String c rest) sub)
    with (if String.prefix sub (String c rest) then true else Contains rest sub).
  by rewrite H.
Qed.

Lemma prefix_split (a s : string) :
  String.prefix a s = true <-> exists post : string, s = a +:+ post.
Proof.
  revert s. induction a as [|c a IH]; intros [|d s]; simpl.
  - split; [intros _; by exists EmptyString | done].
  - split; [intros _; by exists (String d s) | done].
  - split; [done | intros (post & H); discriminate].
  - destruct (ascii_dec c d) as [->|Hne].
    + rewrite IH. split; intros (post & H); exists post.
      * by rewrite H.
      * by inversion H.
    + split; [done | intros (post & H); inversion H; congruence].
Qed.

(** [Contains] finds the substring wherever it lies. *)
Lemma Contains_split (s sub : string) :
  Contains s sub = true <-> exists pre post : string, s = pre +:+ sub +:+ post.
Proof.
  induction s as [|c s IH].
  - change (Contains EmptyString sub) with (String.prefix sub EmptyString).
    rewrite prefix_split. split.
    + intros (post & H). by exists EmptyString, post.
    + intros (pre & post & H). exists post.
      destruct pre; [done | discriminate].
  - change (Contains (String c s) sub)
      with (if String.prefix sub (String c s) then true else Contains s sub).
    destruct (String.prefix sub (String c s)) eqn:Hp.
    + apply prefix_split in Hp as (post & Hp).
      split; [intros _; by exists EmptyString, post | done].
    + rewrite IH. split.
      * intros (pre & post & ->). by exists (String c pre), post.
      * intros (pre & post & H). destruct pre as [|d pre].
        -- assert (String.prefix sub (String c s) = true) as Ht
             by (apply prefix_split; by exists post).
           congruence.
        -- inversion H. by exists pre, post.
Qed.

Section CallbackPaths.

Variable idp : Provider.
Variable config : authConfig.
Variable r : Request.
Variable m : option (gmap string Value).

Let e := Values_Get (Query r) "error".
Let code := Values_Get (Query r) "code".
Let conf := oauthConfig config.
Let userinfo := Domain config +:+ "/userinfo".

(** Step 2: the provider reported an error. *)
Lemma callback_provider_error :
  e <> EmptyString ->
  serve (callbackHandler idp config r) m =
    (Returned, {| session := m;
                  writer := errorReply e StatusBadRequest;
                  trace := [EvError e StatusBadRequest] |}).
Proof.
  subst e. intros He. unfold callbackHandler.
  destruct (Values_Get (Query r) "error"); [done|]. by run.
Qed.

(** Step 3: no authorization code. *)
Lemma callback_missing_code :
  e = EmptyString -> code = EmptyString ->
  serve (callbackHandler idp config r) m =
    (Returned,
     {| session := m;
        writer := errorReply "Did not receive authcode from IdP"
                    StatusInternalServerError;
        trace := [EvError "Did not receive authcode from IdP"
                    StatusInternalServerError] |}).
Proof.
  subst e code. intros He Hc. unfold callbackHandler.
  rewrite He, Hc. by run.
Qed.

(** Step 4: the exchange failed. *)
Lemma callback_exchange_failed (err : string) :
  e = EmptyString -> code <> EmptyString ->
  Exchange idp conf code = inr err ->
  serve (callbackHandler idp config r) m =
    (Returned,
     {| session := m;
        writer := errorReply err StatusInternalServerError;
        trace := [EvExchange conf code;
                  EvError err StatusInternalServerError] |}).
Proof.
  subst e code conf. intros He Hc Hx. unfold callbackHandler. rewrite He.
  destruct (Values_Get (Query r) "code"); [done|].
  run. rewrite Hx. by run.
Qed.

(** Step 5: the profile fetch failed. *)
Lemma callback_fetch_failed (token : Token) (err : string) :
  e = EmptyString -> code <> EmptyString ->
  Exchange idp conf code = inl token ->
  ClientGet idp conf token userinfo = inr err ->
  serve (callbackHandler idp config r) m =
    (Returned,
     {| session := m;
        writer := errorReply err StatusInternalServerError;
        trace := [EvExchange conf code;
                  EvClientGet conf (AccessToken token) userinfo;
                  EvError err StatusInternalServerError] |}).
Proof.
  subst e code conf userinfo. intros He Hc Hx Hg.
  unfold callbackHandler. rewrite He.
  destruct (Values_Get (Query r) "code"); [done|].
  run. rewrite Hx. run. rewrite Hg. by run.
Qed.

(** Reading the body of the profile response failed. *)
Lemma callback_read_failed (token : Token) (resp : HTTPResponse) (err : string) :
  e = EmptyString -> code <> EmptyString ->
  Exchange idp conf code = inl token ->
  ClientGet idp conf token userinfo = inl resp ->
  Body resp = inr err ->
  serve (callbackHandler idp config r) m =
    (Returned,
     {| session := m;
        writer := errorReply err StatusInternalServerError;
        trace := [EvExchange conf code;
                  EvClientGet conf (AccessToken token) userinfo;
                  EvReadAll;
                  EvError err StatusInternalServerError;
                  EvBodyClose] |}).
Proof.
  subst e code conf userinfo. intros He Hc Hx Hg Hb.
  unfold callbackHandler. rewrite He.
  destruct (Values_Get (Query r) "code"); [done|].
  run. rewrite Hx. run. rewrite Hg. run. rewrite Hb. by run.
Qed.

(** Step 6: the profile does not decode. *)
Lemma callback_decode_failed
    (token : Token) (resp : HTTPResponse) (raw err : string) :
  e = EmptyString -> code <> EmptyString ->
  Exchange idp conf code = inl token ->
  ClientGet idp conf token userinfo = inl resp ->
  Body resp = inl raw ->
  Unmarshal idp raw = inr err ->
  serve (callbackHandler idp config r) m =
    (Returned,
     {| session := m;
        writer := errorReply err StatusInternalServerError;
        trace := [EvExchange conf code;
                  EvClientGet conf (AccessToken token) userinfo;
                  EvReadAll;
                  EvError err StatusInternalServerError;
                  EvBodyClose] |}).
Proof.
  subst e code conf userinfo. intros He Hc Hx Hg Hb Hu.
  unfold callbackHandler. rewrite He.
  destruct (Values_Get (Query r) "code"); [done|].
  run. rewrite Hx. run. rewrite Hg. run. rewrite Hb, Hu. by run.
Qed.

(** Steps 7 and 8: the session is written and the browser redirected. *)
Lemma callback_success
    (s : gmap string Value)
    (token : Token) (resp : HTTPResponse) (raw : string)
    (profile : list (string * JSON)) :
  m = Some s ->
  e = EmptyString -> code <> EmptyString ->
  Exchange idp conf code = inl token ->
  ClientGet idp conf token userinfo = inl resp ->
  Body resp = inl raw ->
  Unmarshal idp raw = inl profile ->
  serve (callbackHandler idp config r) m =
    (Next tt,
     {| session :=
          Some (<["profile" := VMap profile]>
                  (<["access_token" := VString (AccessToken token)]>
                     (<["id_token" := Extra token "id_token"]> s)));
        writer := redirectReply r "/protected/access" StatusMovedPermanently;
        trace := [EvExchange conf code;
                  EvClientGet conf (AccessToken token) userinfo;
                  EvReadAll;
                  EvSessionStart;
                  EvSessionSet "id_token" (Extra token "id_token");
                  EvSessionSet "access_token" (VString (AccessToken token));
                  EvSessionSet "profile" (VMap profile);
                  EvRedirect "/protected/access" StatusMovedPermanently;
                  EvSessionRelease;
                  EvBodyClose] |}).
Proof.
  subst e code conf userinfo. intros -> He Hc Hx Hg Hb Hu.
  unfold callbackHandler. rewrite He.
  destruct (Values_Get (Query r) "code"); [done|].
  run. rewrite Hx. run. rewrite Hg. run. rewrite Hb, Hu. run.
  unfold redirectReply, hasHeader. cbn [Header writer].
  rewrite lookup_empty.
  destruct (String.eqb (Method r) "GET"), (String.eqb (Method r) "HEAD");
    by run.
Qed.

(** The same request when the session manager cannot start the session:
    [SessionStart] returns nil, the [defer] statement panics on it, and
    only the deferred close of the response body still runs. *)
Lemma callback_no_store
    (token : Token) (resp : HTTPResponse) (raw : string)
    (profile : list (string * JSON)) :
  m = None ->
  e = EmptyString -> code <> EmptyString ->
  Exchange idp conf code = inl token ->
  ClientGet idp conf token userinfo = inl resp ->
  Body resp = inl raw ->
  Unmarshal idp raw = inl profile ->
  serve (callbackHandler idp config r) m =
    (Panicked nilDereference,
     {| session := None;
        writer := newResponseWriter;
        trace := [EvExchange conf code;
                  EvClientGet conf (AccessToken token) userinfo;
                  EvReadAll;
                  EvSessionStart;
                  EvBodyClose] |}).
Proof.
  subst e code conf userinfo. intros -> He Hc Hx Hg Hb Hu.
  unfold callbackHandler. rewrite He.
  destruct (Values_Get (Query r) "code"); [done|].
  run. rewrite Hx. run. rewrite Hg. run. rewrite Hb, Hu. by run.
Qed.

End CallbackPaths.

(** Every callback request fails in one of the six ways or meets the
    conditions of success. *)
Lemma callback_cases (idp : Provider) (config : authConfig) (r : Request) :
  CallbackFails idp config r \/
  exists (token : Token) (resp : HTTPResponse) (raw : string)
         (profile : list (string * JSON)),
    Values_Get (Query r) "error" = EmptyString /\
    Values_Get (Query r) "code" <> EmptyString /\
    Exchange idp (oauthConfig config) (Values_Get (Query r) "code") = inl token /\
    ClientGet idp (oauthConfig config) token (Domain config +:+ "/userinfo")
      = inl resp /\
    Body resp = inl raw /\
    Unmarshal idp raw = inl profile.
Proof.
  destruct (decide (Values_Get (Query r) "error" = EmptyString)) as [He|He];
    [|left; by apply ProviderError].
  destruct (decide (Values_Get (Query r) "code" = EmptyString)) as [Hc|Hc];
    [left; by apply MissingCode|].
  destruct (Exchange idp (oauthConfig config) (Values_Get (Query r) "code"))
    as [token|err] eqn:Hx; [|left; by eapply ExchangeFailed].
  destruct (ClientGet idp (oauthConfig config) token
              (Domain config +:+ "/userinfo")) as [resp|err] eqn:Hg;
    [|left; by eapply ProfileFetchFailed].
  destruct (Body resp) as [raw|err] eqn:Hb;
    [|left; by eapply BodyReadFailed].
  destruct (Unmarshal idp raw) as [profile|err] eqn:Hu;
    [|left; by eapply ProfileDecodeFailed].
  right. by exists token, resp, raw, profile.
Qed.

(** X15, what the code keeps of C3: when the session manager hands out
    the store, with a code, no error parameter and a provider that answers,
    the handler calls the token exchange once, then the profile fetch
    once, then opens the session once and sets [id_token], [access_token]
    and [profile] once each, and then redirects with 301 to
    [/protected/access]. *)
Lemma callback_success_sequence
    (idp : Provider) (config : authConfig) (r : Request)
    (s : gmap string Value)
    (token : Token) (resp : HTTPResponse) (raw : string)
    (profile : list (string * JSON)) :
  Values_Get (Query r) "error" = EmptyString ->
  Values_Get (Query r) "code" <> EmptyString ->
  Exchange idp (oauthConfig config) (Values_Get (Query r) "code") = inl token ->
  ClientGet idp (oauthConfig config) token (Domain config +:+ "/userinfo")
    = inl resp ->
  Body resp = inl raw ->
  Unmarshal idp raw = inl profile ->
  let out := (serve (callbackHandler idp config r) (Some s)).2 in
  trace out =
    [EvExchange (oauthConfig config) (Values_Get (Query r) "code");
     EvClientGet (oauthConfig config) (AccessToken token)
       (Domain config +:+ "/userinfo");
     EvReadAll;
     EvSessionStart;
     EvSessionSet "id_token" (Extra token "id_token");
     EvSessionSet "access_token" (VString (AccessToken token));
     EvSessionSet "profile" (VMap profile);
     EvRedirect "/protected/access" StatusMovedPermanently;
     EvSessionRelease;
     EvBodyClose] /\
  count isExchange (trace out) = 1 /\
  count isProfileFetch (trace out) = 1 /\
  count isSessionStart (trace out) = 1 /\
  count isSessionRelease (trace out) = 1 /\
  count isSessionSet (trace out) = 3 /\
  count (isSessionSetOf "id_token") (trace out) = 1 /\
  count (isSessionSetOf "access_token") (trace out) = 1 /\
  count (isSessionSetOf "profile") (trace out) = 1 /\
  Status (writer out) = Some StatusMovedPermanently /\
  Header (writer out) !! "Location" = Some "/protected/access".
Proof.
  intros He Hc Hx Hg Hb Hu out. subst out.
  rewrite (callback_success idp config r (Some s) s token resp raw profile
             eq_refl He Hc Hx Hg Hb Hu).
  cbn. repeat split; try reflexivity.
  destruct (String.eqb (Method r) "GET"), (String.eqb (Method r) "HEAD"); cbn;
    rewrite ?lookup_insert_ne by done; apply lookup_insert_eq.
Qed.

Lemma callback_success_sequence_witness :
  let out := (serve (callbackHandler sampleProvider sampleConfig
                       (sampleRequest [("code", ["good"])])) (Some ∅)).2 in
  count isExchange (trace out) = 1 /\
  count isProfileFetch (trace out) = 1 /\
  count isSessionSet (trace out) = 3 /\
  Status (writer out) = Some StatusMovedPermanently.
Proof.
  pose proof (callback_success_sequence sampleProvider sampleConfig
                (sampleRequest [("code", ["good"])]) ∅
                sampleToken {| Body := inl "{}" |} "{}" []) as H.
  destruct H as (_ & Hx & Hf & _ & _ & Hs & _ & _ & _ & Hst & _);
    try reflexivity.
  - vm_compute. discriminate.
  - repeat split; assumption.
Defined.

(** C3, which the code does not keep: a callback request with a code, no
    error parameter and a provider that answers every call does not end in
    the session write and the redirect when the session manager cannot
    start the session.  The handler drops the error of [SessionStart] and
    panics on the nil store at the [defer] statement: after the exchange,
    the profile fetch and the read, no key is set, nothing is written to
    the client and the request is aborted. *)
Theorem callback_aborts_without_store
    (idp : Provider) (config : authConfig) (r : Request)
    (token : Token) (resp : HTTPResponse) (raw : string)
    (profile : list (string * JSON)) :
  Values_Get (Query r) "error" = EmptyString ->
  Values_Get (Query r) "code" <> EmptyString ->
  Exchange idp (oauthConfig config) (Values_Get (Query r) "code") = inl token ->
  ClientGet idp (oauthConfig config) token (Domain config +:+ "/userinfo")
    = inl resp ->
  Body resp = inl raw ->
  Unmarshal idp raw = inl profile ->
  let out := serve (callbackHandler idp config r) None in
  reply out = Aborted nilDereference /\
  trace out.2 =
    [EvExchange (oauthConfig config) (Values_Get (Query r) "code");
     EvClientGet (oauthConfig config) (AccessToken token)
       (Domain config +:+ "/userinfo");
     EvReadAll;
     EvSessionStart;
     EvBodyClose] /\
  count isSessionSet (trace out.2) = 0 /\
  count isSessionRelease (trace out.2) = 0 /\
  Status (writer out.2) = None /\
  Written (writer out.2) = EmptyString.
Proof.
  intros He Hc Hx Hg Hb Hu out. subst out.
  rewrite (callback_no_store idp config r None token resp raw profile) by done.
  cbn. repeat split; reflexivity.
Qed.

Lemma callback_aborts_without_store_witness :
  let out := serve (callbackHandler sampleProvider sampleConfig
                      (sampleRequest [("code", ["good"])])) None in
  reply out = Aborted nilDereference /\
  count isSessionSet (trace out.2) = 0 /\
  Status (writer out.2) = None.
Proof.
  intros out.
  destruct (callback_aborts_without_store sampleProvider sampleConfig
              (sampleRequest [("code", ["good"])])
              sampleToken {| Body := inl "{}" |} "{}" [])
    as (Hr & _ & Hs & _ & Hst & _); try reflexivity.
  - vm_compute. discriminate.
  - repeat split; assumption.
Defined.

(** C4: a callback request that fails, for any of the six reasons, gets an
    error reply and leaves the session as it was: no key is set and the
    session is not even opened. *)
Theorem callback_failure_keeps_session
    (idp : Provider) (config : authConfig) (r : Request)
    (m : option (gmap string Value)) :
  CallbackFails idp config r ->
  let out := (serve (callbackHandler idp config r) m).2 in
  isErrorReply (writer out) /\
  session out = m /\
  count isSessionSet (trace out) = 0 /\
  count isSessionStart (trace out) = 0.
Proof.
  intros [He | He Hc | err He Hc Hx | token err He Hc Hx Hg
          | token resp err He Hc Hx Hg Hb
          | token resp raw err He Hc Hx Hg Hb Hu] out; subst out.
  - rewrite callback_provider_error by done.
    repeat split; try reflexivity. by exists StatusBadRequest.
  - rewrite callback_missing_code by done.
    repeat split; try reflexivity. by exists StatusInternalServerError.
  - rewrite (callback_exchange_failed idp config r m err) by done.
    repeat split; try reflexivity. by exists StatusInternalServerError.
  - rewrite (callback_fetch_failed idp config r m token err) by done.
    repeat split; try reflexivity. by exists StatusInternalServerError.
  - rewrite (callback_read_failed idp config r m token resp err) by done.
    repeat split; try reflexivity. by exists StatusInternalServerError.
  - rewrite (callback_decode_failed idp config r m token resp raw err) by done.
    repeat split; try reflexivity. by exists StatusInternalServerError.
Qed.

Lemma callback_failure_keeps_session_witness :
  let s : gmap string Value := {["access_token" := VString "old"]} in
  let out := (serve (callbackHandler sampleProvider sampleConfig
                       (sampleRequest [("code", ["stale"])]) ) (Some s)).2 in
  session out = Some s /\ count isSessionSet (trace out) = 0.
Proof.
  intros s out.
  destruct (callback_failure_keeps_session sampleProvider sampleConfig
              (sampleRequest [("code", ["stale"])]) (Some s))
    as (_ & Hs & Hn & _).
  - apply ExchangeFailed with (err := "oauth2: cannot fetch token").
    + reflexivity.
    + vm_compute. discriminate.
    + reflexivity.
  - split; assumption.
Defined.

(** The six failures are all there is: an error reply comes from one of
    them. *)
Lemma callback_error_reply_fails
    (idp : Provider) (config : authConfig) (r : Request)
    (m : option (gmap string Value)) :
  isErrorReply (writer (serve (callbackHandler idp config r) m).2) ->
  CallbackFails idp config r.
Proof.
  destruct (callback_cases idp config r)
    as [F | (token & resp & raw & profile & He & Hc & Hx & Hg & Hb & Hu)];
    [done|].
  destruct m as [s|].
  - rewrite (callback_success idp config r (Some s) s token resp raw profile)
      by done.
    intros (code & Hst & Hge). cbn in Hst. inversion Hst; subst code.
    unfold StatusMovedPermanently in Hge. lia.
  - rewrite (callback_no_store idp config r None token resp raw profile)
      by done.
    intros (code & Hst & Hge). discriminate Hst.
Qed.

(** C5: a non-empty [error] parameter gets status 400 with the error text
    in the body; nothing is exchanged, fetched or written to the session,
    whether or not a [code] parameter came along. *)
Theorem callback_error_param_rejected
    (idp : Provider) (config : authConfig) (r : Request)
    (m : option (gmap string Value)) :
  Values_Get (Query r) "error" <> EmptyString ->
  let out := (serve (callbackHandler idp config r) m).2 in
  Status (writer out) = Some StatusBadRequest /\
  Contains (Written (writer out)) (Values_Get (Query r) "error") = true /\
  count isExchange (trace out) = 0 /\
  count isProfileFetch (trace out) = 0 /\
  count isSessionSet (trace out) = 0 /\
  session out = m.
Proof.
  intros He out. subst out. rewrite callback_provider_error by done.
  repeat split; try reflexivity.
  cbn. apply Contains_prefix, prefix_append.
Qed.

Lemma callback_error_param_rejected_witness :
  let r := sampleRequest [("error", ["access_denied"]); ("code", ["good"])] in
  let out := (serve (callbackHandler sampleProvider sampleConfig r) (Some ∅)).2 in
  Values_Get (Query r) "code" = "good" /\
  Status (writer out) = Some StatusBadRequest /\
  Contains (Written (writer out)) "access_denied" = true /\
  count isExchange (trace out) = 0.
Proof.
  intros r out.
  destruct (callback_error_param_rejected sampleProvider sampleConfig r (Some ∅))
    as (Hst & Hb & Hx & _).
  - vm_compute. discriminate.
  - repeat split; assumption.
Defined.

(** C6, as the spec words it, fails: the body of the reply to a request
    without [code] and [error] does not hold the text
    [authorization code missing]. *)
Lemma callback_missing_code_text_differs :
  let out := (serve (callbackHandler sampleProvider sampleConfig
                       (sampleRequest [])) (Some ∅)).2 in
  Status (writer out) = Some StatusInternalServerError /\
  Written (writer out) = "Did not receive authcode from IdP" +:+ nl /\
  Contains (Written (writer out)) "authorization code missing" = false.
Proof. vm_compute. repeat split; reflexivity. Qed.

(** C6, amended: without an [error] parameter and with an absent or empty
    [code] parameter the reply has status 500 and the message
    [Did not receive authcode from IdP]; nothing is exchanged and nothing
    is written to the session. *)
Theorem callback_missing_code_rejected
    (idp : Provider) (config : authConfig) (r : Request)
    (m : option (gmap string Value)) :
  Values_Get (Query r) "error" = EmptyString ->
  Values_Get (Query r) "code" = EmptyString ->
  let out := (serve (callbackHandler idp config r) m).2 in
  Status (writer out) = Some StatusInternalServerError /\
  Written (writer out) = "Did not receive authcode from IdP" +:+ nl /\
  count isExchange (trace out) = 0 /\
  count isSessionSet (trace out) = 0 /\
  session out = m.
Proof.
  intros He Hc out. subst out. rewrite callback_missing_code by done.
  repeat split; reflexivity.
Qed.

Lemma callback_missing_code_rejected_witness :
  let r := sampleRequest [("code", [EmptyString]); ("state", ["xyz"])] in
  let out := (serve (callbackHandler sampleProvider sampleConfig r) (Some ∅)).2 in
  Status (writer out) = Some StatusInternalServerError /\
  Written (writer out) = "Did not receive authcode from IdP" +:+ nl.
Proof.
  intros r out.
  destruct (callback_missing_code_rejected sampleProvider sampleConfig r (Some ∅))
    as (Hst & Hb & _); [reflexivity | reflexivity |].
  split; assumption.
Defined.

(** Membership in a trace written out in full. *)
Ltac trace_mem H :=
  repeat (apply elem_of_cons in H as [H|H]; [try discriminate H|]);
  try (apply elem_of_nil in H; contradiction).

(** An exchange the callback makes carries the configuration built from
    the static [authConfig]. *)
Lemma callback_exchange_event
    (idp : Provider) (config : authConfig) (r : Request)
    (m : option (gmap string Value)) (conf : Config) (code : string) :
  EvExchange conf code ∈ trace (serve (callbackHandler idp config r) m).2 ->
  conf = oauthConfig config.
Proof.
  intros Hin.
  destruct (callback_cases idp config r)
    as [[He | He Hc | err He Hc Hx | token err He Hc Hx Hg
         | token resp err He Hc Hx Hg Hb
         | token resp raw err He Hc Hx Hg Hb Hu]
       | (token & resp & raw & profile & He & Hc & Hx & Hg & Hb & Hu)].
  - rewrite callback_provider_error in Hin by done. cbn in Hin. trace_mem Hin.
  - rewrite callback_missing_code in Hin by done. cbn in Hin. trace_mem Hin.
  - rewrite (callback_exchange_failed idp config r m err) in Hin by done.
    cbn in Hin. trace_mem Hin. by inversion Hin.
  - rewrite (callback_fetch_failed idp config r m token err) in Hin by done.
    cbn in Hin. trace_mem Hin. by inversion Hin.
  - rewrite (callback_read_failed idp config r m token resp err) in Hin by done.
    cbn in Hin. trace_mem Hin. by inversion Hin.
  - rewrite (callback_decode_failed idp config r m token resp raw err) in Hin
      by done.
    cbn in Hin. trace_mem Hin. by inversion Hin.
  - destruct m as [s|].
    + rewrite (callback_success idp config r (Some s) s token resp raw profile)
        in Hin by done.
      cbn in Hin. trace_mem Hin. by inversion Hin.
    + rewrite (callback_no_store idp config r None token resp raw profile)
        in Hin by done.
      cbn in Hin. trace_mem Hin. by inversion Hin.
Qed.

(** C10: whenever the callback exchanges a code, the request goes out with
    the configuration built from the static [authConfig] alone: the scopes
    [openid], [test.access], [test.admin] and the two endpoints under
    [Domain]. *)
Theorem callback_exchange_config_fixed
    (idp : Provider) (config : authConfig) (r : Request)
    (m : option (gmap string Value)) (conf : Config) (code : string) :
  EvExchange conf code ∈ trace (serve (callbackHandler idp config r) m).2 ->
  conf = oauthConfig config /\
  cfScopes conf = ["openid"; "test.access"; "test.admin"] /\
  AuthURL (cfEndpoint conf) = Domain config +:+ "/oauth/authorize" /\
  TokenURL (cfEndpoint conf) = Domain config +:+ "/oauth/token".
Proof.
  intros Hin. apply callback_exchange_event in Hin as ->. by repeat split.
Qed.

Lemma callback_exchange_config_fixed_witness :
  EvExchange (oauthConfig sampleConfig) "good"
    ∈ trace (serve (callbackHandler sampleProvider sampleConfig
                      (sampleRequest [("code", ["good"])])) (Some ∅)).2 /\
  cfScopes (oauthConfig sampleConfig) = ["openid"; "test.access"; "test.admin"] /\
  AuthURL (cfEndpoint (oauthConfig sampleConfig))
    = "https://idp.example/oauth/authorize" /\
  TokenURL (cfEndpoint (oauthConfig sampleConfig))
    = "https://idp.example/oauth/token".
Proof.
  assert (EvExchange (oauthConfig sampleConfig) "good"
            ∈ trace (serve (callbackHandler sampleProvider sampleConfig
                              (sampleRequest [("code", ["good"])])) (Some ∅)).2) as Hin.
  { vm_compute. apply list_elem_of_here. }
  split; [exact Hin|].
  destruct (callback_exchange_config_fixed sampleProvider sampleConfig
              (sampleRequest [("code", ["good"])]) (Some ∅)
              (oauthConfig sampleConfig) "good" Hin) as (_ & Hs & Ha & Ht).
  repeat split; assumption.
Defined.

(** Two callback requests, whatever they carry, exchange their codes with
    the same configuration. *)
Lemma callback_exchange_config_same
    (idp1 idp2 : Provider) (config : authConfig) (r1 r2 : Request)
    (m1 m2 : option (gmap string Value)) (conf1 conf2 : Config)
    (code1 code2 : string) :
  EvExchange conf1 code1 ∈ trace (serve (callbackHandler idp1 config r1) m1).2 ->
  EvExchange conf2 code2 ∈ trace (serve (callbackHandler idp2 config r2) m2).2 ->
  conf1 = conf2.
Proof.
  intros H1 H2.
  apply callback_exchange_event in H1. apply callback_exchange_event in H2.
  congruence.
Qed.

(** ** The protected pages *)

Section PageFacts.

#[local] Arguments hasScope : simpl never.

Variable decodeClaims : string -> option (list string).
Variable r : Request.
Variable s : gmap string Value.

(** A session without access token: the type assertion panics before the
    gate is reached; only the deferred release still runs. *)
Lemma accessHandler_no_token :
  s !! "access_token" = None ->
  serve (accessHandler decodeClaims r) (Some s) =
    (Panicked "interface conversion: interface {} is nil, not string",
     {| session := Some s; writer := newResponseWriter;
        trace := [EvSessionStart; EvSessionRelease] |}).
Proof. intros Hs. unfold accessHandler. run. rewrite Hs. by run. Qed.

Lemma adminHandler_no_token :
  s !! "access_token" = None ->
  serve (adminHandler decodeClaims r) (Some s) =
    (Panicked "interface conversion: interface {} is nil, not string",
     {| session := Some s; writer := newResponseWriter;
        trace := [EvSessionStart; EvSessionRelease] |}).
Proof. intros Hs. unfold adminHandler. run. rewrite Hs. by run. Qed.

(** With a string in the session the reply is decided by the gate. *)
Lemma accessHandler_reply (t : string) :
  s !! "access_token" = Some (VString t) ->
  reply (serve (accessHandler decodeClaims r) (Some s)) =
    if hasScope (parseToken decodeClaims t).1 ["test.access"; "test.admin"]
    then Replied StatusOK {["Content-Type" := "text/html;charset=utf-8"]}
           accessPage
    else Replied StatusOK ∅ notAuthorized.
Proof.
  intros Hs. unfold accessHandler. run. rewrite Hs. run.
  destruct (parseToken decodeClaims t) as [token [e|]]; run;
    match goal with
    | |- context [hasScope ?c ?req] => destruct (hasScope c req)
    end; by run.
Qed.

Lemma adminHandler_reply (t : string) :
  s !! "access_token" = Some (VString t) ->
  reply (serve (adminHandler decodeClaims r) (Some s)) =
    if hasScope (parseToken decodeClaims t).1 ["test.admin"]
    then Replied StatusOK {["Content-Type" := "text/html;charset=utf-8"]}
           adminPage
    else Replied StatusOK ∅ notAuthorized.
Proof.
  intros Hs. unfold adminHandler. run. rewrite Hs. run.
  destruct (parseToken decodeClaims t) as [token [e|]]; run;
    match goal with
    | |- context [hasScope ?c ?req] => destruct (hasScope c req)
    end; by run.
Qed.

(** A session store that is missing, or that holds no string under
    [access_token]: the handler panics, on the nil store at the [defer]
    statement, otherwise at the type assertion, where the deferred
    release still runs.  Nothing is written. *)
Lemma accessHandler_panics (m : option (gmap string Value)) :
  (forall t : string, m ≫= (.!! "access_token") <> Some (VString t)) ->
  exists msg : string,
    serve (accessHandler decodeClaims r) m =
      (Panicked msg,
       {| session := m; writer := newResponseWriter;
          trace := EvSessionStart ::
                   match m with
                   | Some _ => [EvSessionRelease]
                   | None => []
                   end |}).
Proof.
  intros Hm. unfold accessHandler. run.
  destruct m as [s'|]; run; [|eauto].
  destruct (s' !! "access_token") as [[|t|v]|] eqn:Hs; run; eauto.
  by destruct (Hm t).
Qed.

Lemma adminHandler_panics (m : option (gmap string Value)) :
  (forall t : string, m ≫= (.!! "access_token") <> Some (VString t)) ->
  exists msg : string,
    serve (adminHandler decodeClaims r) m =
      (Panicked msg,
       {| session := m; writer := newResponseWriter;
          trace := EvSessionStart ::
                   match m with
                   | Some _ => [EvSessionRelease]
                   | None => []
                   end |}).
Proof.
  intros Hm. unfold adminHandler. run.
  destruct m as [s'|]; run; [|eauto].
  destruct (s' !! "access_token") as [[|t|v]|] eqn:Hs; run; eauto.
  by destruct (Hm t).
Qed.

End PageFacts.

Lemma accessPage_not_denial : accessPage <> notAuthorized.
Proof. vm_compute. discriminate. Qed.

Lemma adminPage_not_denial : adminPage <> notAuthorized.
Proof. vm_compute. discriminate. Qed.

(** The two gates in terms of the scopes of the claim set. *)
Lemma gate_access (c : ClaimSet) :
  hasScope c ["test.access"; "test.admin"] = true <->
  "test.access" ∈ scopes c \/ "test.admin" ∈ scopes c.
Proof.
  rewrite <- !containsScope_elem. simpl.
  destruct (containsScope (scopes c) "test.access");
    destruct (containsScope (scopes c) "test.admin"); intuition congruence.
Qed.

Lemma gate_admin (c : ClaimSet) :
  hasScope c ["test.admin"] = true <-> "test.admin" ∈ scopes c.
Proof.
  rewrite <- containsScope_elem. simpl.
  destruct (containsScope (scopes c) "test.admin"); intuition congruence.
Qed.

(** What a page does with the outcome of its gate. *)
Lemma gated_reply (granted : bool) (h : gmap string string) (page : string)
    (P : Prop) (out : Outcome unit * World) :
  page <> notAuthorized ->
  (granted = true <-> P) ->
  reply out = (if granted then Replied StatusOK h page
               else Replied StatusOK ∅ notAuthorized) ->
  (pageServed page out <-> P) /\ (~ pageServed page out -> denied out).
Proof.
  intros Hpage HP Hr. unfold pageServed, denied. rewrite Hr.
  destruct granted.
  - split; [split; [intros _; by apply HP | intros _; by exists h]|].
    intros Hn. destruct Hn. by exists h.
  - split; [|done]. split.
    + intros (h' & Heq). inversion Heq. congruence.
    + intros HPt. apply HP in HPt. discriminate.
Qed.

(** C1, which the code does not keep: a request to a protected page whose
    session holds no access token is not answered with the denial.  The
    type assertion on the missing value panics, the handler writes nothing
    and the request is aborted, on the access page and on the admin page
    alike. *)
Theorem pages_abort_without_token
    (decodeClaims : string -> option (list string)) (r : Request)
    (s : gmap string Value) :
  s !! "access_token" = None ->
  let access := serve (accessHandler decodeClaims r) (Some s) in
  let admin := serve (adminHandler decodeClaims r) (Some s) in
  reply access = Aborted "interface conversion: interface {} is nil, not string" /\
  reply admin = Aborted "interface conversion: interface {} is nil, not string" /\
  Written (writer access.2) = EmptyString /\
  Written (writer admin.2) = EmptyString /\
  ~ denied access /\ ~ denied admin.
Proof.
  intros Hs access admin. subst access admin. unfold denied.
  rewrite accessHandler_no_token, adminHandler_no_token by done.
  cbn. repeat split; try reflexivity; discriminate.
Qed.

Lemma pages_abort_without_token_witness :
  reply (serve (accessHandler sampleDecode (sampleRequest [])) (Some ∅))
    = Aborted "interface conversion: interface {} is nil, not string" /\
  reply (serve (adminHandler sampleDecode (sampleRequest [])) (Some ∅))
    = Aborted "interface conversion: interface {} is nil, not string".
Proof.
  destruct (pages_abort_without_token sampleDecode (sampleRequest []) ∅)
    as (Ha & Hb & _); [reflexivity|].
  split; assumption.
Defined.

(** The part of C1 the code keeps: an empty or undecodable token in the
    session is denied on both pages. *)
Lemma pages_deny_malformed_token
    (decodeClaims : string -> option (list string)) (r : Request)
    (s : gmap string Value) (t : string) :
  s !! "access_token" = Some (VString t) ->
  t = EmptyString \/ decodeClaims t = None ->
  denied (serve (accessHandler decodeClaims r) (Some s)) /\
  denied (serve (adminHandler decodeClaims r) (Some s)).
Proof.
  intros Hs Ht. unfold denied.
  rewrite (accessHandler_reply decodeClaims r s t Hs).
  rewrite (adminHandler_reply decodeClaims r s t Hs).
  by rewrite (parseToken_malformed decodeClaims t Ht).
Qed.

(** C7, which the code does not keep: an unauthenticated request, one
    whose session holds no access token or for which no session store
    could be started, has no claims and is served neither page, and yet
    it does not get the 200 with the body [YOU ARE NOT AUTHORIZED]: the
    handler panics before its gate and the request is aborted, on the
    access page and on the admin page alike. *)
Theorem pages_gate_unauthenticated
    (decodeClaims : string -> option (list string)) (r : Request)
    (m : option (gmap string Value)) :
  m ≫= (.!! "access_token") = None ->
  let access := serve (accessHandler decodeClaims r) m in
  let admin := serve (adminHandler decodeClaims r) m in
  (~ pageServed accessPage access) /\ (~ denied access) /\
  (~ pageServed adminPage admin) /\ (~ denied admin) /\
  (exists msg : string, reply access = Aborted msg) /\
  (exists msg : string, reply admin = Aborted msg).
Proof.
  intros Hm access admin. subst access admin. unfold pageServed, denied.
  destruct (accessHandler_panics decodeClaims r m) as [m1 ->];
    [intros t; by rewrite Hm|].
  destruct (adminHandler_panics decodeClaims r m) as [m2 ->];
    [intros t; by rewrite Hm|].
  cbn. repeat split; eauto; try discriminate; intros (h & Hh); discriminate.
Qed.

Lemma pages_gate_unauthenticated_witness :
  (~ denied (serve (accessHandler sampleDecode (sampleRequest [])) (Some ∅))) /\
  (~ denied (serve (adminHandler sampleDecode (sampleRequest [])) None)).
Proof.
  split.
  - destruct (pages_gate_unauthenticated sampleDecode (sampleRequest [])
                (Some ∅)) as (_ & H & _); [reflexivity | exact H].
  - destruct (pages_gate_unauthenticated sampleDecode (sampleRequest [])
                None) as (_ & _ & _ & H & _); [reflexivity | exact H].
Defined.

(** X16, what the code keeps of C7: for a session that holds an access
    token, the access page is served iff the token's claims include
    [test.access] or [test.admin], the admin page iff they include
    [test.admin]; a request that fails its gate gets 200 with the body
    [YOU ARE NOT AUTHORIZED].  A token with the scope [test.access] alone
    reaches the access page and is denied at the admin page. *)
Lemma pages_gate
    (decodeClaims : string -> option (list string)) (r : Request)
    (s : gmap string Value) (t : string) :
  s !! "access_token" = Some (VString t) ->
  let claims := (parseToken decodeClaims t).1 in
  let access := serve (accessHandler decodeClaims r) (Some s) in
  let admin := serve (adminHandler decodeClaims r) (Some s) in
  (pageServed accessPage access <->
     "test.access" ∈ scopes claims \/ "test.admin" ∈ scopes claims) /\
  (~ pageServed accessPage access -> denied access) /\
  (pageServed adminPage admin <-> "test.admin" ∈ scopes claims) /\
  (~ pageServed adminPage admin -> denied admin) /\
  (scopes claims = ["test.access"] ->
     pageServed accessPage access /\ denied admin).
Proof.
  intros Hs claims access admin.
  pose proof (gated_reply _ _ accessPage _ access accessPage_not_denial
                (gate_access claims)
                (accessHandler_reply decodeClaims r s t Hs)) as [Ha1 Ha2].
  pose proof (gated_reply _ _ adminPage _ admin adminPage_not_denial
                (gate_admin claims)
                (adminHandler_reply decodeClaims r s t Hs)) as [Hb1 Hb2].
  split; [exact Ha1|]. split; [exact Ha2|].
  split; [exact Hb1|]. split; [exact Hb2|].
  intros Hc. split.
  - apply Ha1. rewrite Hc. left. apply list_elem_of_here.
  - apply Hb2. rewrite Hb1, Hc. intros Hin.
    apply elem_of_cons in Hin as [Heq|Hin]; [discriminate|].
    by apply elem_of_nil in Hin.
Qed.

Lemma pages_gate_witness :
  let s : gmap string Value := {["access_token" := VString "test.access"]} in
  pageServed accessPage (serve (accessHandler sampleDecode (sampleRequest [])) (Some s)) /\
  denied (serve (adminHandler sampleDecode (sampleRequest [])) (Some s)).
Proof.
  intros s.
  destruct (pages_gate sampleDecode (sampleRequest []) s "test.access")
    as (_ & _ & _ & _ & H); [reflexivity|].
  apply H. reflexivity.
Defined.

(** ** The home page *)

Lemma append_assoc (a b c : string) : (a +:+ b) +:+ c = a +:+ (b +:+ c).
Proof.
  induction a as [|x a IH]; [reflexivity|].
  change (String x ((a +:+ b) +:+ c) = String x (a +:+ (b +:+ c))).
  by rewrite IH.
Qed.

(** The home template parses into text and three field actions. *)
Lemma homeTemplate_parses :
  template_Parse homeTemplate =
    Some [NText homeHead; NField "Domain";
          NText "/oauth/authorize?client_id="; NField "ClientID";
          NText "&redirect_uri="; NField "CallbackURL";
          NText ("&response_type=code" +:+ homeFoot)].
Proof. vm_compute. reflexivity. Qed.

(** The run of the home handler. *)
Lemma homeHandler_run (config : authConfig) (r : Request)
    (m : option (gmap string Value)) :
  serve (homeHandler config r) m =
    (Next tt,
     {| session := m;
        writer :=
          {| Header := ∅; Status := Some StatusOK;
             Written := homeHead
                        +:+ loginLink (Domain config +:+ "/oauth/authorize")
                              (ClientID config) (CallbackURL config)
                        +:+ homeFoot |};
        trace := [EvWrite homeHead; EvWrite (Domain config);
                  EvWrite "/oauth/authorize?client_id=";
                  EvWrite (ClientID config);
                  EvWrite "&redirect_uri=";
                  EvWrite (CallbackURL config);
                  EvWrite ("&response_type=code" +:+ homeFoot)] |}).
Proof.
  unfold homeHandler. rewrite homeTemplate_parses. run.
  unfold loginLink. rewrite !append_assoc. reflexivity.
Qed.

(** X1: the home page is served with 200 to every request, whatever the
    session holds; its body has the login link made of [Domain],
    [ClientID] and [CallbackURL], inserted as they are; the handler calls
    neither the session store nor the provider and leaves the session as
    it was. *)
Theorem home_page_served (config : authConfig) (r : Request)
    (m : option (gmap string Value)) :
  let out := serve (homeHandler config r) m in
  let link := Domain config +:+ "/oauth/authorize?client_id=" +:+ ClientID config
              +:+ "&redirect_uri=" +:+ CallbackURL config
              +:+ "&response_type=code" in
  reply out = Replied StatusOK ∅ (homeHead +:+ link +:+ homeFoot) /\
  Contains (Written (writer out.2)) link = true /\
  session out.2 = m /\
  count isOutsideCall (trace out.2) = 0.
Proof.
  intros out link. subst out. rewrite homeHandler_run. cbn.
  assert (loginLink (Domain config +:+ "/oauth/authorize") (ClientID config)
            (CallbackURL config) = link) as ->.
  { unfold loginLink, link. by rewrite append_assoc. }
  repeat split; try reflexivity.
  apply Contains_split. by exists homeHead, homeFoot.
Qed.

(** X2: the link of the home page and the token exchange of the callback
    agree: the link points at the [AuthURL] of the configuration the
    exchange is made with and carries its client id and its redirect URL. *)
Theorem home_link_matches_exchange
    (idp : Provider) (config : authConfig) (r r' : Request)
    (m m' : option (gmap string Value)) (conf : Config) (code : string) :
  EvExchange conf code ∈ trace (serve (callbackHandler idp config r) m).2 ->
  Contains (Written (writer (serve (homeHandler config r') m').2))
    (loginLink (AuthURL (cfEndpoint conf)) (cfClientID conf)
       (cfRedirectURL conf)) = true.
Proof.
  intros Hin. apply callback_exchange_event in Hin as ->.
  rewrite homeHandler_run. cbn.
  apply Contains_split. by exists homeHead, homeFoot.
Qed.

Lemma home_link_matches_exchange_witness :
  Contains
    (Written (writer (serve (homeHandler sampleConfig (sampleRequest []))
                        (Some ∅)).2))
    "https://idp.example/oauth/authorize?client_id=client&redirect_uri=http://localhost/callback&response_type=code"
  = true.
Proof.
  apply (home_link_matches_exchange sampleProvider sampleConfig
           (sampleRequest [("code", ["good"])]) (sampleRequest [])
           (Some ∅) (Some ∅)
           (oauthConfig sampleConfig) "good").
  vm_compute. apply list_elem_of_here.
Defined.

(** X3: the home page does not depend on the client secret: two
    configurations with the same domain, client id and callback URL give
    the same reply. *)
Theorem home_page_ignores_secret (config1 config2 : authConfig)
    (r : Request) (m : option (gmap string Value)) :
  Domain config1 = Domain config2 ->
  ClientID config1 = ClientID config2 ->
  CallbackURL config1 = CallbackURL config2 ->
  serve (homeHandler config1 r) m = serve (homeHandler config2 r) m.
Proof.
  intros Hd Hi Hc. rewrite !homeHandler_run. by rewrite Hd, Hi, Hc.
Qed.

Lemma home_page_ignores_secret_witness :
  serve (homeHandler sampleConfig (sampleRequest [])) (Some ∅) =
  serve (homeHandler {| ClientID := "client"; ClientSecret := "another";
                        Domain := "https://idp.example";
                        CallbackURL := "http://localhost/callback" |}
           (sampleRequest [])) (Some ∅).
Proof.
  apply (home_page_ignores_secret sampleConfig
           {| ClientID := "client"; ClientSecret := "another";
              Domain := "https://idp.example";
              CallbackURL := "http://localhost/callback" |});
    reflexivity.
Defined.

(** ** More on the callback *)

(** Splits a goal about a run of the callback into its paths: the six
    failures, the success with a store and the panic without one. *)
Ltac callback_paths idp config r m :=
  destruct (callback_cases idp config r)
    as [[He | He Hc | err He Hc Hx | token err He Hc Hx Hg
         | token resp err He Hc Hx Hg Hb
         | token resp raw err He Hc Hx Hg Hb Hu]
       | (token & resp & raw & profile & He & Hc & Hx & Hg & Hb & Hu)];
  [ rewrite (callback_provider_error idp config r m) by done
  | rewrite (callback_missing_code idp config r m) by done
  | rewrite (callback_exchange_failed idp config r m err) by done
  | rewrite (callback_fetch_failed idp config r m token err) by done
  | rewrite (callback_read_failed idp config r m token resp err) by done
  | rewrite (callback_decode_failed idp config r m token resp raw err) by done
  | destruct m as [s|];
    [ rewrite (callback_success idp config r (Some s) s token resp raw profile)
        by done
    | rewrite (callback_no_store idp config r None token resp raw profile)
        by done ] ].

(** The conditions of success exclude every failure. *)
Lemma callback_success_not_fails
    (idp : Provider) (config : authConfig) (r : Request)
    (token : Token) (resp : HTTPResponse) (raw : string)
    (profile : list (string * JSON)) :
  Values_Get (Query r) "error" = EmptyString ->
  Values_Get (Query r) "code" <> EmptyString ->
  Exchange idp (oauthConfig config) (Values_Get (Query r) "code") = inl token ->
  ClientGet idp (oauthConfig config) token (Domain config +:+ "/userinfo")
    = inl resp ->
  Body resp = inl raw ->
  Unmarshal idp raw = inl profile ->
  ~ CallbackFails idp config r.
Proof.
  intros He Hc Hx Hg Hb Hu
    [He' | He' Hc' | err He' Hc' Hx' | token' err He' Hc' Hx' Hg'
     | token' resp' err He' Hc' Hx' Hg' Hb'
     | token' resp' raw' err He' Hc' Hx' Hg' Hb' Hu']; congruence.
Qed.

(** X4: every callback request is answered with 301, 400 or 500, or is
    aborted by the panic on a nil session store: 400 exactly when the
    [error] parameter is not empty, 301 exactly when none of the failures
    occurs and the session manager hands out a store, aborted exactly when
    none of the failures occurs and it hands out none. *)
Theorem callback_status_cases
    (idp : Provider) (config : authConfig) (r : Request)
    (m : option (gmap string Value)) :
  let out := serve (callbackHandler idp config r) m in
  (reply out = Aborted nilDereference \/
   exists (status : Z) (h : gmap string string) (body : string),
     reply out = Replied status h body /\
     (status = StatusMovedPermanently \/ status = StatusBadRequest
      \/ status = StatusInternalServerError)) /\
  (reply out = Aborted nilDereference <->
     ~ CallbackFails idp config r /\ m = None) /\
  (Status (writer out.2) = Some StatusBadRequest <->
     Values_Get (Query r) "error" <> EmptyString) /\
  (Status (writer out.2) = Some StatusMovedPermanently <->
     ~ CallbackFails idp config r /\ is_Some m).
Proof.
  intros out. subst out.
  callback_paths idp config r m; cbn.
  - split; [right; eauto 10|].
    split; [split; [discriminate | intros [Hn _]; destruct Hn; by apply ProviderError]|].
    split; [done|].
    split; [discriminate | intros [Hn _]; destruct Hn; by apply ProviderError].
  - split; [right; eauto 10|].
    split; [split; [discriminate | intros [Hn _]; destruct Hn; by apply MissingCode]|].
    split; [split; [discriminate | congruence]|].
    split; [discriminate | intros [Hn _]; destruct Hn; by apply MissingCode].
  - split; [right; eauto 10|].
    split; [split; [discriminate | intros [Hn _]; destruct Hn; by eapply ExchangeFailed]|].
    split; [split; [discriminate | congruence]|].
    split; [discriminate | intros [Hn _]; destruct Hn; by eapply ExchangeFailed].
  - split; [right; eauto 10|].
    split; [split; [discriminate | intros [Hn _]; destruct Hn; by eapply ProfileFetchFailed]|].
    split; [split; [discriminate | congruence]|].
    split; [discriminate | intros [Hn _]; destruct Hn; by eapply ProfileFetchFailed].
  - split; [right; eauto 10|].
    split; [split; [discriminate | intros [Hn _]; destruct Hn; by eapply BodyReadFailed]|].
    split; [split; [discriminate | congruence]|].
    split; [discriminate | intros [Hn _]; destruct Hn; by eapply BodyReadFailed].
  - split; [right; eauto 10|].
    split; [split; [discriminate | intros [Hn _]; destruct Hn; by eapply ProfileDecodeFailed]|].
    split; [split; [discriminate | congruence]|].
    split; [discriminate | intros [Hn _]; destruct Hn; by eapply ProfileDecodeFailed].
  - split; [right; eauto 10|].
    split; [split; [discriminate | intros [_ Hm]; discriminate]|].
    split; [split; [discriminate | congruence]|].
    split; [intros _; split; [by eapply callback_success_not_fails | by eexists]
           | done].
  - split; [by left|].
    split; [split; [intros _; split; [by eapply callback_success_not_fails | done]
                   | done]|].
    split; [split; [discriminate | congruence]|].
    split; [discriminate | intros [_ [x Hsome]]; discriminate].
Qed.

(** X5: when the token exchange fails the reply is 500 in plain text with
    the error of the exchange as its body; the exchange was tried once and
    no profile is fetched. *)
Theorem callback_exchange_failure_reply
    (idp : Provider) (config : authConfig) (r : Request)
    (m : option (gmap string Value)) (err : string) :
  Values_Get (Query r) "error" = EmptyString ->
  Values_Get (Query r) "code" <> EmptyString ->
  Exchange idp (oauthConfig config) (Values_Get (Query r) "code") = inr err ->
  let out := (serve (callbackHandler idp config r) m).2 in
  Status (writer out) = Some StatusInternalServerError /\
  Written (writer out) = err +:+ nl /\
  Header (writer out) !! "Content-Type" = Some "text/plain; charset=utf-8" /\
  count isExchange (trace out) = 1 /\
  count isProfileFetch (trace out) = 0.
Proof.
  intros He Hc Hx out. subst out.
  rewrite (callback_exchange_failed idp config r m err) by done.
  repeat split; reflexivity.
Qed.

Lemma callback_exchange_failure_reply_witness :
  let out := (serve (callbackHandler sampleProvider sampleConfig
                       (sampleRequest [("code", ["stale"])])) (Some ∅)).2 in
  Status (writer out) = Some StatusInternalServerError /\
  Written (writer out) = "oauth2: cannot fetch token" +:+ nl.
Proof.
  intros out.
  destruct (callback_exchange_failure_reply sampleProvider sampleConfig
              (sampleRequest [("code", ["stale"])]) (Some ∅)
              "oauth2: cannot fetch token") as (Hst & Hb & _).
  - reflexivity.
  - vm_compute. discriminate.
  - reflexivity.
  - split; assumption.
Defined.

(** X6: when the profile request fails the reply is 500 with the error of
    the request as its body; one exchange and one request were made, no
    body is read or closed and the session is not opened. *)
Theorem callback_fetch_failure_reply
    (idp : Provider) (config : authConfig) (r : Request)
    (m : option (gmap string Value)) (token : Token) (err : string) :
  Values_Get (Query r) "error" = EmptyString ->
  Values_Get (Query r) "code" <> EmptyString ->
  Exchange idp (oauthConfig config) (Values_Get (Query r) "code") = inl token ->
  ClientGet idp (oauthConfig config) token (Domain config +:+ "/userinfo")
    = inr err ->
  let out := (serve (callbackHandler idp config r) m).2 in
  Status (writer out) = Some StatusInternalServerError /\
  Written (writer out) = err +:+ nl /\
  count isExchange (trace out) = 1 /\
  count isProfileFetch (trace out) = 1 /\
  count isReadAll (trace out) = 0 /\
  count isBodyClose (trace out) = 0 /\
  count isSessionStart (trace out) = 0.
Proof.
  intros He Hc Hx Hg out. subst out.
  rewrite (callback_fetch_failed idp config r m token err) by done.
  repeat split; reflexivity.
Qed.

Lemma callback_fetch_failure_reply_witness :
  let out := (serve (callbackHandler unreachableProfile sampleConfig
                       (sampleRequest [("code", ["good"])])) (Some ∅)).2 in
  Status (writer out) = Some StatusInternalServerError /\
  Written (writer out) = "Get /userinfo: connection refused" +:+ nl.
Proof.
  intros out.
  destruct (callback_fetch_failure_reply unreachableProfile sampleConfig
              (sampleRequest [("code", ["good"])]) (Some ∅) sampleToken
              "Get /userinfo: connection refused") as (Hst & Hb & _).
  - reflexivity.
  - vm_compute. discriminate.
  - reflexivity.
  - reflexivity.
  - split; assumption.
Defined.

(** X7: when the body of the profile response cannot be read, or is read
    and does not decode, the reply is 500 with that error as its body, the
    body of the response is closed all the same and the session is not
    opened. *)
Theorem callback_profile_failure_reply
    (idp : Provider) (config : authConfig) (r : Request)
    (m : option (gmap string Value)) (token : Token) (resp : HTTPResponse)
    (err : string) :
  Values_Get (Query r) "error" = EmptyString ->
  Values_Get (Query r) "code" <> EmptyString ->
  Exchange idp (oauthConfig config) (Values_Get (Query r) "code") = inl token ->
  ClientGet idp (oauthConfig config) token (Domain config +:+ "/userinfo")
    = inl resp ->
  Body resp = inr err \/
    (exists raw : string, Body resp = inl raw /\ Unmarshal idp raw = inr err) ->
  let out := (serve (callbackHandler idp config r) m).2 in
  Status (writer out) = Some StatusInternalServerError /\
  Written (writer out) = err +:+ nl /\
  count isReadAll (trace out) = 1 /\
  count isBodyClose (trace out) = 1 /\
  count isSessionStart (trace out) = 0.
Proof.
  intros He Hc Hx Hg [Hb | (raw & Hb & Hu)] out; subst out.
  - rewrite (callback_read_failed idp config r m token resp err) by done.
    repeat split; reflexivity.
  - rewrite (callback_decode_failed idp config r m token resp raw err) by done.
    repeat split; reflexivity.
Qed.

Lemma callback_profile_failure_reply_witness :
  (let out := (serve (callbackHandler truncatedProfile sampleConfig
                        (sampleRequest [("code", ["good"])])) (Some ∅)).2 in
   Written (writer out) = "unexpected EOF" +:+ nl /\
   count isBodyClose (trace out) = 1) /\
  (let out := (serve (callbackHandler garbledProfile sampleConfig
                        (sampleRequest [("code", ["good"])])) (Some ∅)).2 in
   Written (writer out) = "invalid character '<' looking for beginning of value" +:+ nl /\
   count isBodyClose (trace out) = 1).
Proof.
  split; intros out.
  - destruct (callback_profile_failure_reply truncatedProfile sampleConfig
                (sampleRequest [("code", ["good"])]) (Some ∅) sampleToken
                {| Body := inr "unexpected EOF" |} "unexpected EOF")
      as (_ & Hb & _ & Hc & _).
    + reflexivity.
    + vm_compute. discriminate.
    + reflexivity.
    + reflexivity.
    + left. reflexivity.
    + split; assumption.
  - destruct (callback_profile_failure_reply garbledProfile sampleConfig
                (sampleRequest [("code", ["good"])]) (Some ∅) sampleToken
                {| Body := inl "<html>" |} "invalid character '<' looking for beginning of value")
      as (_ & Hb & _ & Hc & _).
    + reflexivity.
    + vm_compute. discriminate.
    + reflexivity.
    + reflexivity.
    + right. exists "<html>". split; reflexivity.
    + split; assumption.
Defined.


(** X9: the callback never tries anything twice and keeps one order: on
    every path its calls to the provider and to the session store are an
    initial segment of the sequence exchange, profile request, read of the
    body, start of the session, and three sets. *)
Theorem callback_no_retries
    (idp : Provider) (config : authConfig) (r : Request)
    (m : option (gmap string Value)) :
  steps (trace (serve (callbackHandler idp config r) m).2)
    `prefix_of` [StepExchange; StepFetch; StepRead; StepStart;
                 StepSet; StepSet; StepSet].
Proof.
  callback_paths idp config r m; cbn; eexists; reflexivity.
Qed.

(** X10: a profile request of the callback goes to [Domain] followed by
    [/userinfo], with the configuration of the exchange, and its bearer is
    the access token the exchange of this request's code returned. *)
Theorem callback_fetch_uses_exchanged_token
    (idp : Provider) (config : authConfig) (r : Request)
    (m : option (gmap string Value)) (conf : Config) (bearer url : string) :
  EvClientGet conf bearer url
    ∈ trace (serve (callbackHandler idp config r) m).2 ->
  conf = oauthConfig config /\
  url = Domain config +:+ "/userinfo" /\
  exists token : Token,
    Exchange idp (oauthConfig config) (Values_Get (Query r) "code") = inl token /\
    bearer = AccessToken token.
Proof.
  revert conf bearer url.
  callback_paths idp config r m; cbn; intros conf bearer url Hin;
    trace_mem Hin; inversion Hin; subst; eauto.
Qed.

Lemma callback_fetch_uses_exchanged_token_witness :
  exists token : Token,
    Exchange sampleProvider (oauthConfig sampleConfig) "good" = inl token /\
    "test.access" = AccessToken token.
Proof.
  destruct (callback_fetch_uses_exchanged_token sampleProvider sampleConfig
              (sampleRequest [("code", ["good"])]) (Some ∅)
              (oauthConfig sampleConfig) "test.access"
              "https://idp.example/userinfo") as (_ & _ & H).
  - vm_compute. apply list_elem_of_further, list_elem_of_here.
  - exact H.
Defined.

(** X11: the callback redirects only after the login is stored: when the
    reply is 301, the session holds the access token of the exchange, its
    [id_token] and the decoded profile, and every other key of the session
    is as before. *)
Theorem callback_redirect_after_store
    (idp : Provider) (config : authConfig) (r : Request)
    (m : option (gmap string Value)) :
  let out := (serve (callbackHandler idp config r) m).2 in
  Status (writer out) = Some StatusMovedPermanently ->
  exists (s s' : gmap string Value)
         (token : Token) (resp : HTTPResponse) (raw : string)
         (profile : list (string * JSON)),
    m = Some s /\
    session out = Some s' /\
    Exchange idp (oauthConfig config) (Values_Get (Query r) "code") = inl token /\
    ClientGet idp (oauthConfig config) token (Domain config +:+ "/userinfo")
      = inl resp /\
    Body resp = inl raw /\
    Unmarshal idp raw = inl profile /\
    s' !! "access_token" = Some (VString (AccessToken token)) /\
    s' !! "id_token" = Some (Extra token "id_token") /\
    s' !! "profile" = Some (VMap profile) /\
    forall key : string,
      key <> "access_token" -> key <> "id_token" -> key <> "profile" ->
      s' !! key = s !! key.
Proof.
  intros out. subst out.
  callback_paths idp config r m; cbn; try discriminate.
  intros _. eexists s, _, token, resp, raw, profile.
  split; [reflexivity|]. split; [reflexivity|].
  repeat split; try assumption.
  - rewrite lookup_insert_ne by done. apply lookup_insert_eq.
  - rewrite !lookup_insert_ne by done. apply lookup_insert_eq.
  - apply lookup_insert_eq.
  - intros key H1 H2 H3. by rewrite !lookup_insert_ne.
Qed.

Lemma callback_redirect_after_store_witness :
  let out := (serve (callbackHandler sampleProvider sampleConfig
                       (sampleRequest [("code", ["good"])]))
                (Some {["access_token" := VString "old";
                        "theme" := VString "dark"]})).2 in
  exists (s' : gmap string Value) (token : Token),
    session out = Some s' /\
    s' !! "theme" = Some (VString "dark") /\
    Exchange sampleProvider (oauthConfig sampleConfig) "good" = inl token /\
    s' !! "access_token" = Some (VString (AccessToken token)).
Proof.
  intros out.
  destruct (callback_redirect_after_store sampleProvider sampleConfig
              (sampleRequest [("code", ["good"])])
              (Some {["access_token" := VString "old";
                      "theme" := VString "dark"]}))
    as (s & s' & token & resp & raw & profile & Hm & Hs' & Hx & _ & _ & _
        & Ha & _ & _ & Hk).
  - reflexivity.
  - exists s', token. split; [exact Hs'|]. split; [|split; assumption].
    rewrite Hk by discriminate. inversion Hm. reflexivity.
Defined.

(** ** More on the protected pages *)

Section PageRuns.

#[local] Arguments hasScope : simpl never.

Variable decodeClaims : string -> option (list string).
Variable r : Request.
Variable s : gmap string Value.

(** The run of a page on a session that holds a string. *)
Lemma accessHandler_run (t : string) :
  s !! "access_token" = Some (VString t) ->
  let parsed := parseToken decodeClaims t in
  let granted := hasScope parsed.1 ["test.access"; "test.admin"] in
  serve (accessHandler decodeClaims r) (Some s) =
    (Next tt,
     {| session := Some s;
        writer :=
          if granted
          then {| Header := {["Content-Type" := "text/html;charset=utf-8"]};
                  Status := Some StatusOK; Written := accessPage |}
          else {| Header := ∅; Status := Some StatusOK;
                  Written := notAuthorized |};
        trace := [EvSessionStart] ++ printed parsed.2
                 ++ [EvWrite (if granted then accessPage else notAuthorized);
                     EvSessionRelease] |}).
Proof.
  intros Hs parsed granted. subst parsed granted.
  unfold accessHandler. run. rewrite Hs. run.
  destruct (parseToken decodeClaims t) as [token [e|]]; run;
    match goal with
    | |- context [hasScope ?c ?req] => destruct (hasScope c req)
    end; by run.
Qed.

Lemma adminHandler_run (t : string) :
  s !! "access_token" = Some (VString t) ->
  let parsed := parseToken decodeClaims t in
  let granted := hasScope parsed.1 ["test.admin"] in
  serve (adminHandler decodeClaims r) (Some s) =
    (Next tt,
     {| session := Some s;
        writer :=
          if granted
          then {| Header := {["Content-Type" := "text/html;charset=utf-8"]};
                  Status := Some StatusOK; Written := adminPage |}
          else {| Header := ∅; Status := Some StatusOK;
                  Written := notAuthorized |};
        trace := [EvSessionStart] ++ printed parsed.2
                 ++ [EvWrite (if granted then adminPage else notAuthorized);
                     EvSessionRelease] |}).
Proof.
  intros Hs parsed granted. subst parsed granted.
  unfold adminHandler. run. rewrite Hs. run.
  destruct (parseToken decodeClaims t) as [token [e|]]; run;
    match goal with
    | |- context [hasScope ?c ?req] => destruct (hasScope c req)
    end; by run.
Qed.

End PageRuns.

(** X12: after a callback that succeeded, the protected pages answer on
    the session it wrote, whatever the session held before: they do not
    abort, and each serves its page or the denial as its gate decides on
    the access token of the exchange. *)
Theorem login_then_pages
    (idp : Provider) (config : authConfig) (r : Request)
    (s : gmap string Value)
    (token : Token) (resp : HTTPResponse) (raw : string)
    (profile : list (string * JSON))
    (decodeClaims : string -> option (list string)) (r' : Request) :
  Values_Get (Query r) "error" = EmptyString ->
  Values_Get (Query r) "code" <> EmptyString ->
  Exchange idp (oauthConfig config) (Values_Get (Query r) "code") = inl token ->
  ClientGet idp (oauthConfig config) token (Domain config +:+ "/userinfo")
    = inl resp ->
  Body resp = inl raw ->
  Unmarshal idp raw = inl profile ->
  let s' := session (serve (callbackHandler idp config r) (Some s)).2 in
  let claims := (parseToken decodeClaims (AccessToken token)).1 in
  reply (serve (accessHandler decodeClaims r') s') =
    (if hasScope claims ["test.access"; "test.admin"]
     then Replied StatusOK {["Content-Type" := "text/html;charset=utf-8"]}
            accessPage
     else Replied StatusOK ∅ notAuthorized) /\
  reply (serve (adminHandler decodeClaims r') s') =
    (if hasScope claims ["test.admin"]
     then Replied StatusOK {["Content-Type" := "text/html;charset=utf-8"]}
            adminPage
     else Replied StatusOK ∅ notAuthorized).
Proof.
  intros He Hc Hx Hg Hb Hu s' claims. subst s' claims.
  rewrite (callback_success idp config r (Some s) s token resp raw profile)
    by done.
  cbn [snd session].
  split.
  - apply accessHandler_reply.
    rewrite lookup_insert_ne by done. apply lookup_insert_eq.
  - apply adminHandler_reply.
    rewrite lookup_insert_ne by done. apply lookup_insert_eq.
Qed.

Lemma login_then_pages_witness :
  let s' := session (serve (callbackHandler sampleProvider sampleConfig
                              (sampleRequest [("code", ["good"])])) (Some ∅)).2 in
  reply (serve (accessHandler sampleDecode (sampleRequest [])) s') =
    Replied StatusOK {["Content-Type" := "text/html;charset=utf-8"]} accessPage /\
  reply (serve (adminHandler sampleDecode (sampleRequest [])) s') =
    Replied StatusOK ∅ notAuthorized.
Proof.
  intros s'.
  apply (login_then_pages sampleProvider sampleConfig
           (sampleRequest [("code", ["good"])]) ∅
           sampleToken {| Body := inl "{}" |} "{}" []
           sampleDecode (sampleRequest [])); try reflexivity.
  vm_compute. discriminate.
Defined.

(** X13: the protected pages only read the session: on every path, the
    panics on a missing token and on a nil session store included, the
    session is left as it was, it is started once, no key is set and the
    provider is not called.  The deferred release runs once whenever the
    session manager handed out a store, also when the handler panics at
    the type assertion; it never runs when the store is nil. *)
Theorem pages_keep_session
    (decodeClaims : string -> option (list string)) (r : Request)
    (m : option (gmap string Value)) :
  let access := (serve (accessHandler decodeClaims r) m).2 in
  let admin := (serve (adminHandler decodeClaims r) m).2 in
  let releases := match m with Some _ => 1 | None => 0 end in
  (session access = m /\
   count isSessionStart (trace access) = 1 /\
   count isSessionRelease (trace access) = releases /\
   count isSessionSet (trace access) = 0 /\
   count isExchange (trace access) = 0 /\
   count isProfileFetch (trace access) = 0) /\
  (session admin = m /\
   count isSessionStart (trace admin) = 1 /\
   count isSessionRelease (trace admin) = releases /\
   count isSessionSet (trace admin) = 0 /\
   count isExchange (trace admin) = 0 /\
   count isProfileFetch (trace admin) = 0).
Proof.
  intros access admin releases. subst access admin releases.
  destruct (m ≫= (.!! "access_token")) as [[|t|v]|] eqn:Hm.
  2: { destruct m as [s|]; [|discriminate]. cbn in Hm.
       rewrite (accessHandler_run decodeClaims r s t Hm).
       rewrite (adminHandler_run decodeClaims r s t Hm).
       destruct (parseToken decodeClaims t) as [claims [e|]]; by cbn. }
  all: destruct (accessHandler_panics decodeClaims r m) as [m1 ->];
    [intros t; by rewrite Hm|];
    destruct (adminHandler_panics decodeClaims r m) as [m2 ->];
    [intros t; by rewrite Hm|]; destruct m; by cbn.
Qed.

(** X14: a token that does not parse costs the client nothing but the
    page: the error is printed once on standard output, the reply stays
    200 and its body is written in one piece, between the start and the
    release of the session; without a parse error nothing is printed. *)
Theorem pages_log_parse_error
    (decodeClaims : string -> option (list string)) (r : Request)
    (s : gmap string Value) (t : string) :
  s !! "access_token" = Some (VString t) ->
  let err := (parseToken decodeClaims t).2 in
  let access := (serve (accessHandler decodeClaims r) (Some s)).2 in
  let admin := (serve (adminHandler decodeClaims r) (Some s)).2 in
  Status (writer access) = Some StatusOK /\
  trace access = ([EvSessionStart] ++ printed err
                  ++ [EvWrite (Written (writer access)); EvSessionRelease])%list /\
  Status (writer admin) = Some StatusOK /\
  trace admin = ([EvSessionStart] ++ printed err
                 ++ [EvWrite (Written (writer admin)); EvSessionRelease])%list /\
  count isPrintf (trace access) = length (printed err) /\
  count isPrintf (trace admin) = length (printed err).
Proof.
  intros Hs err access admin. subst err access admin.
  rewrite (accessHandler_run decodeClaims r s t Hs).
  rewrite (adminHandler_run decodeClaims r s t Hs).
  destruct (parseToken decodeClaims t) as [claims [e|]]; cbn [fst snd];
    destruct (hasScope claims ["test.access"; "test.admin"]);
    destruct (hasScope claims ["test.admin"]); by cbn.
Qed.

Lemma pages_log_parse_error_witness :
  let s : gmap string Value := {["access_token" := VString "bad token"]} in
  let access := (serve (accessHandler sampleDecode (sampleRequest []))
                   (Some s)).2 in
  Status (writer access) = Some StatusOK /\
  count isPrintf (trace access) = 1.
Proof.
  intros s access.
  destruct (pages_log_parse_error sampleDecode (sampleRequest []) s "bad token")
    as (Hst & _ & _ & _ & Hp & _); [reflexivity|].
  split; [exact Hst | exact Hp].
Defined.

End Server.
